(** * GTUD digital rotation v6.2 / v6.2.S: a shallow embedding

    The development follows the three programs of the repository:

    - [Engine]  : V6-2-S/vendor/V6_2_artifact_pack/code/run_v6_2_experiment.py
                  (signal synthesis, rotation curves, fits, aggregation);
    - [Runner]  : V6-2-S/run_experiment.py (verdict engine of the student kit);
    - [Checker] : V6-2-S/tools/check_official_replication.py.

    Python floats are kept abstract behind the class [Float64]; its instance
    [binary64] is the kernel's IEEE 754 doubles, the arithmetic of the code,
    on which the definitions can be run. Statements that hold whatever the
    arithmetic are made for every instance; statements on rounding are made
    on [binary64]. *)

From Stdlib Require Import ZArith List String Ascii Bool Lia Floats Uint63.
From stdpp Require Import list gmap strings pretty sorting.
Import ListNotations.

Set Implicit Arguments.
Set Warnings "-register-all".
Local Open Scope string_scope.

(** ** Exceptions and results *)

Inductive exn : Type :=
| ZeroDivisionError
| FloatingPointError
| ValueError
| KeyError
| IndexError
| RuntimeError
| NameError
| AttributeError
| FileNotFoundError
| TypeError
| IsADirectoryError.

(** The outcome of running a piece of code: a value, an exception, or
    [OutOfFuel] when a loop of the embedding was cut before the code
    finished (Python has no such outcome: it keeps running). *)
Inductive result (A : Type) : Type :=
| Ok (a : A)
| Raise (e : exn)
| OutOfFuel.
Arguments Ok {A} a.
Arguments Raise {A} e.
Arguments OutOfFuel {A}.

Definition rbind {A B} (r : result A) (k : A -> result B) : result B :=
  match r with
  | Ok a => k a
  | Raise e => Raise e
  | OutOfFuel => OutOfFuel
  end.

Notation "x <- c ;; k" := (rbind c (fun x => k))
  (at level 100, c at next level, right associativity).

(** ** Floating-point numbers *)

Class Float64 (F : Type) : Type := {
  of_Z : Z -> F;
  nan : F;
  fadd : F -> F -> F;
  fsub : F -> F -> F;
  fmul : F -> F -> F;
  fdiv : F -> F -> F;
  fsqrt : F -> F;
  fabs : F -> F;
  feqb : F -> F -> bool;
  fltb : F -> F -> bool;
  fleb : F -> F -> bool;
  nan_not_eq : forall x, feqb nan x = false;
  zero_eq_zero : feqb (of_Z 0) (of_Z 0) = true
}.

(** A decimal literal [num/den] of the source, read as the nearest float. *)
Definition of_Q {F} `{Float64 F} (num den : Z) : F := fdiv (of_Z num) (of_Z den).

(** *** IEEE 754 binary64 *)

Definition float_of_Z (z : Z) : float :=
  match z with
  | Z0 => PrimFloat.zero
  | Zpos _ => PrimFloat.of_uint63 (Uint63.of_Z z)
  | Zneg p => PrimFloat.opp (PrimFloat.of_uint63 (Uint63.of_Z (Zpos p)))
  end.

Lemma float_nan_not_eq (x : float) : PrimFloat.eqb PrimFloat.nan x = false.
Proof.
  rewrite FloatAxioms.eqb_spec.
  reflexivity.
Qed.

#[export] Instance binary64 : Float64 float := {|
  of_Z := float_of_Z;
  nan := PrimFloat.nan;
  fadd := PrimFloat.add;
  fsub := PrimFloat.sub;
  fmul := PrimFloat.mul;
  fdiv := PrimFloat.div;
  fsqrt := PrimFloat.sqrt;
  fabs := PrimFloat.abs;
  feqb := PrimFloat.eqb;
  fltb := PrimFloat.ltb;
  fleb := PrimFloat.leb;
  nan_not_eq := float_nan_not_eq;
  zero_eq_zero := eq_refl
|}.


(** ** numpy on one-dimensional arrays

    Arrays are lists; an operation on two arrays pairs them by position (the
    program only ever combines arrays of one length, where numpy would raise
    on a mismatch). Sums run left to right: numpy's pairwise order gives the
    same value up to rounding, and the very same one below 8 elements. *)

Section Numpy.
Context {F : Type} `{Float64 F}.

Definition of_nat (k : nat) : F := of_Z (Z.of_nat k).

Definition fsq (v : F) : F := fmul v v.

Definition fgeb (a b : F) : bool := fleb b a.
Definition fgtb (a b : F) : bool := fltb b a.
Definition fneb (a b : F) : bool := negb (feqb a b).
Definition isnan (a : F) : bool := negb (feqb a a).

Definition np_sum (x : list F) : F := fold_left fadd x (of_Z 0).

Definition np_mean (x : list F) : F := fdiv (np_sum x) (of_nat (length x)).

Definition np_dot (x y : list F) : F := np_sum (zip_with fmul x y).

(** [a / b] on Python floats. *)
Definition py_div (a b : F) : result F :=
  if feqb b (of_Z 0) then Raise ZeroDivisionError else Ok (fdiv a b).

(** [a / b] on numpy values. numpy reports a zero divisor as a RuntimeWarning
    and goes on with inf or nan; the embedding turns the event into
    [FloatingPointError] (numpy's own name for it under [seterr(all='raise')])
    so that its absence can be stated. *)
Definition np_div (a b : F) : result F :=
  if feqb b (of_Z 0) then Raise FloatingPointError else Ok (fdiv a b).

Definition np_div_array (x : list F) (b : F) : result (list F) :=
  if feqb b (of_Z 0) then Raise FloatingPointError
  else Ok (map (fun v => fdiv v b) x).

(** [np.roll(x, -k)]: circular shift to the left. *)
Definition np_roll_left (x : list F) (k : nat) : list F :=
  let s := (k mod length x)%nat in (drop s x ++ take s x)%list.

(** [np.sign]. *)
Definition np_sign (v : F) : F :=
  if fltb v (of_Z 0) then of_Z (-1)
  else if fgtb v (of_Z 0) then of_Z 1
  else if feqb v (of_Z 0) then of_Z 0
  else nan.

(** [np.fft.rfftfreq(n, d=1.0)]: [arange(n//2 + 1) * (1.0 / (n * d))]. *)
Definition rfftfreq (n : nat) : result (list F) :=
  val <- py_div (of_Z 1) (fmul (of_nat n) (of_Z 1)) ;;
  Ok (map (fun i => fmul (of_nat i) val) (seq 0 (n / 2 + 1))).

End Numpy.

(** ** What the programs take from outside the repository

    [math], [np.fft], [np.linalg] and the random generator are not code of
    the repository: every function below that uses one takes this record.
    [G] is the state of [np.random.Generator]. A complex number is the pair
    of its real and imaginary parts. *)

Record External (F G : Type) : Type := {
  math_pi : F;
  math_cos : F -> F;
  math_sin : F -> F;
  py_pow : F -> F -> F;
  fft_rfft : list F -> list (F * F);
  fft_irfft : list (F * F) -> nat -> list F;
  linalg_lstsq : list F -> list F -> result (F * F);
  default_rng : Z -> G;
  rng_uniform : F -> F -> G -> F * G;
  rng_normal : F -> F -> nat -> G -> list F * G;
  rng_random : nat -> G -> list F * G;
  rng_choice : list F -> nat -> G -> list F * G
}.

(** ** pandas, JSON and files

    A data frame is its list of column names and its rows, each row a
    dictionary from column name to cell. [agg_mean] and [agg_std] are what
    [groupby(...).agg] computes for "mean" and "std": missing values (NaN)
    are skipped, and the standard deviation divides by the count minus one. *)

Definition str_le (a b : string) : Prop := String.leb a b = true.

#[export] Instance str_le_dec : RelDecision str_le.
Proof.
  intros a b. unfold str_le. apply _.
Defined.

(** Python values as far as the programs meet them: what [json.loads]
    returns, and the cells of a data frame ([JStr] and [JNum]). *)
Inductive json (F : Type) : Type :=
| JNull
| JBool (b : bool)
| JNum (v : F)
| JStr (s : string)
| JList (l : list (json F))
| JDict (kvs : list (string * json F)).
Arguments JNull {F}.
Arguments JBool {F} b.
Arguments JNum {F} v.
Arguments JStr {F} s.
Arguments JList {F} l.
Arguments JDict {F} kvs.

Record DataFrame (F : Type) : Type := {
  columns : list string;
  records : list (gmap string (json F))
}.

(** What a path of the file system holds: a CSV table as [pd.read_csv] reads
    it, a JSON document as [json.loads] reads it, or other text. *)
Inductive file (F : Type) : Type :=
| Csv (df : DataFrame F)
| Json (v : json F)
| Text (s : string).
Arguments Csv {F} df.
Arguments Json {F} v.
Arguments Text {F} s.

Section Pandas.
Context {F : Type} `{Float64 F}.

Definition dropna (l : list F) : list F := filter (fun v => isnan v = false) l.

Definition agg_mean (l : list F) : F :=
  let v := dropna l in
  if (length v =? 0)%nat then nan
  else fdiv (np_sum v) (of_nat (length v)).

Definition agg_std (l : list F) : F :=
  let v := dropna l in
  if (length v <? 2)%nat then nan
  else
    let m := fdiv (np_sum v) (of_nat (length v)) in
    fsqrt (fdiv (np_sum (map (fun a => fsq (fsub a m)) v)) (of_nat (length v - 1))).

Definition agg_size (l : list F) : F := of_nat (length l).

(** [sorted(column.unique())], also the order of the groups of [groupby]. *)
Definition sorted_unique (l : list string) : list string :=
  merge_sort str_le (remove_dups l).

(** [d[key]] on a dictionary. *)
Definition getitem {A} (d : gmap string A) (key : string) : result A :=
  match d !! key with
  | Some v => Ok v
  | None => Raise KeyError
  end.

(** [d[key]] and [d.get(key)] on a decoded JSON value. *)
Fixpoint assoc {A} (kvs : list (string * A)) (key : string) : option A :=
  match kvs with
  | [] => None
  | (k, v) :: kvs' => if String.eqb k key then Some v else assoc kvs' key
  end.

Definition json_getitem (v : json F) (key : string) : result (json F) :=
  match v with
  | JDict kvs =>
      match assoc kvs key with
      | Some x => Ok x
      | None => Raise KeyError
      end
  | _ => Raise TypeError
  end.

(** [float(s)] on text is Python's parser, taken from outside: the number
    that the text spells (as "0.875", "nan" or "inf" do), or nothing when
    [float] raises [ValueError]. *)
Context (float_of_str : string -> option F).

(** [float(v)] of a decoded JSON value or of a cell. *)
Definition float_of_json (v : json F) : result F :=
  match v with
  | JNum x => Ok x
  | JBool b => Ok (of_Z (if b then 1 else 0))
  | JStr s =>
      match float_of_str s with
      | Some x => Ok x
      | None => Raise ValueError
      end
  | _ => Raise TypeError
  end.

End Pandas.

(** Iteration in the [result] monad: [for a in l] with a state threaded
    through, and without one. *)
Fixpoint for_each {A B S} (f : A -> S -> result (B * S)) (l : list A) (s : S)
  : result (list B * S) :=
  match l with
  | [] => Ok ([], s)
  | a :: l' =>
      bs <- f a s ;;
      rest <- for_each f l' (snd bs) ;;
      Ok (fst bs :: fst rest, snd rest)
  end.

Fixpoint rmap {A B} (f : A -> result B) (l : list A) : result (list B) :=
  match l with
  | [] => Ok []
  | a :: l' =>
      b <- f a ;;
      bs <- rmap f l' ;;
      Ok (b :: bs)
  end.
(** ** run_v6_2_experiment.py *)

Module Engine.

Record Params (F : Type) : Type := {
  n : nat;
  replicates : nat;
  seed : Z;
  band : F;
  lambda_threshold : F;
  mean_abs_max : F;
  sign_changes_min : Z;
  sign_changes_max : Z;
  p_spectrum : F
}.

(** The dictionary returned beside an accepted sequence. *)
Record Coherence (F : Type) : Type := {
  coh_lambda : F;
  coh_mean : F;
  coh_sign_changes_half : nat
}.

Section Engine.
Context {F : Type} `{Float64 F} {G : Type} (ext : External F G).

Definition default_Params : Params F := {|
  n := 512;
  replicates := 120;
  seed := 42;
  band := of_Q 8 100;
  lambda_threshold := of_Q 75 100;
  mean_abs_max := of_Q 10 100;
  sign_changes_min := 2;
  sign_changes_max := 200;
  p_spectrum := of_Q 270 100
|}.

Definition centered (x : list F) : list F :=
  map (fun v => fsub v (np_mean x)) x.

Definition rms_of (x : list F) : F := fsqrt (np_mean (map fsq x)).

Definition unit_rms (x : list F) : result (list F) :=
  let x := centered x in
  let rms := rms_of x in
  if feqb rms (of_Z 0) then Ok x
  else np_div_array x rms.

Definition cabs2 (c : F * F) : F :=
  fsq (fsqrt (fadd (fsq (fst c)) (fsq (snd c)))).

Definition low_freq_ratio (x : list F) (band : F) : result F :=
  let n := length x in
  let X := fft_rfft ext x in
  let power := map cabs2 X in
  freqs <- rfftfreq n ;;
  let num := np_sum (map snd (filter (fun fp => fleb (fst fp) band = true) (zip freqs power))) in
  let den := np_sum power in
  if fgtb den (of_Z 0) then py_div num den else Ok (of_Z 0).

Definition sign_changes_half (x : list F) : nat :=
  let half := take (length x / 2) x in
  let s := map np_sign half in
  let s := map (fun v => if feqb v (of_Z 0) then of_Z 1 else v) s in
  length (filter (fun b => b = true) (zip_with fneb (drop 1 s) s)).

(** The indices [idx] of the bins of the half-length spectrum that are
    strictly positive and at most [band]. *)
Definition active_bins (m : nat) (band : F) : result (list nat) :=
  freqs_m <- rfftfreq m ;;
  Ok (map fst (filter (fun kf => (fgtb (snd kf) (of_Z 0) && fleb (snd kf) band) = true)
                      (zip (seq 0 (length freqs_m)) freqs_m))).

(** One pass of [for k in idx], threading the generator. *)
Fixpoint fill_spectrum (p : Params F) (idx : list nat) (spec : list (F * F)) (g : G)
  : result (list (F * F) * G) :=
  match idx with
  | [] => Ok (spec, g)
  | k :: idx' =>
      let f := of_nat k in
      amp <- py_div (of_Z 1) (py_pow ext f (fdiv (p_spectrum p) (of_Z 2))) ;;
      let '(phase, g') := rng_uniform ext (of_Z 0) (fmul (of_Z 2) (math_pi ext)) g in
      let c := (fmul amp (math_cos ext phase), fmul amp (math_sin ext phase)) in
      fill_spectrum p idx' (<[k := c]> spec) g'
  end.

Definition real_nyquist (m : nat) (spec : list (F * F)) : list (F * F) :=
  if (m mod 2 =? 0)%nat then
    match last spec with
    | Some c => <[pred (length spec) := (fst c, of_Z 0)]> spec
    | None => spec
    end
  else spec.

(** The candidate built from one spectrum, before the gates. *)
Definition candidate (m : nat) (spec : list (F * F)) : result (list F) :=
  let h := fft_irfft ext (real_nyquist m spec) m in
  unit_rms (h ++ rev h)%list.

Definition accepted (p : Params F) (lam mu : F) (sc : nat) : bool :=
  fgeb lam (lambda_threshold p)
  && fleb (fabs mu) (mean_abs_max p)
  && ((sign_changes_min p <=? Z.of_nat sc)%Z && (Z.of_nat sc <=? sign_changes_max p)%Z).

(** One pass of the body of [while True] up to the gates: the spectrum drawn,
    the candidate and its low-frequency ratio, and the generator after the
    draws. *)
Definition attempt (p : Params F) (m : nat) (idx : list nat) (g : G)
  : result (list F * F * G) :=
  sg <- fill_spectrum p idx (repeat (of_Z 0, of_Z 0) (m / 2 + 1)) g ;;
  let '(spec, g') := sg in
  x <- candidate m spec ;;
  lam <- low_freq_ratio x (band p) ;;
  Ok (x, lam, g').

(** [while True]; [fuel] bounds the number of candidates the embedding
    tries, the code has no such bound. *)
Fixpoint accept_loop (fuel : nat) (p : Params F) (m : nat) (idx : list nat) (g : G)
  : result (list F * Coherence F * G) :=
  match fuel with
  | O => OutOfFuel
  | S fuel' =>
      a <- attempt p m idx g ;;
      let '(x, lam, g') := a in
      let mu := np_mean x in
      let sc := sign_changes_half x in
      if accepted p lam mu sc
      then Ok (x, {| coh_lambda := lam; coh_mean := mu; coh_sign_changes_half := sc |}, g')
      else accept_loop fuel' p m idx g'
  end.

Definition generate_coherent_soft (fuel : nat) (g : G) (p : Params F)
  : result (list F * Coherence F * G) :=
  let m := (n p / 2)%nat in
  idx <- active_bins m (band p) ;;
  if (length idx =? 0)%nat then Raise RuntimeError
  else accept_loop fuel p m idx g.

Definition to_bin (x : list F) : list F :=
  map (fun v => if fgeb v (of_Z 0) then of_Z 1 else of_Z (-1)) x.

Definition corr_mean (x_ref x_other : list F) : F :=
  np_mean (zip_with fmul x_ref x_other).

(** [np.sum((y - yhat) ** 2)] and [np.sum((y - np.mean(y)) ** 2)]. *)
Definition ss_res (y yhat : list F) : F := np_sum (map fsq (zip_with fsub y yhat)).
Definition ss_tot (y : list F) : F := np_sum (map (fun v => fsq (fsub v (np_mean y))) y).

Definition r2_score (y yhat : list F) : result F :=
  if feqb (ss_tot y) (of_Z 0) then Ok nan
  else
    q <- py_div (ss_res y yhat) (ss_tot y) ;;
    Ok (fsub (of_Z 1) q).

Definition fit_through_origin (x y : list F) : result (F * F) :=
  let denom := np_dot x x in
  beta <- (if fneb denom (of_Z 0) then np_div (np_dot x y) denom else Ok nan) ;;
  let yhat := map (fmul beta) x in
  r2 <- r2_score y yhat ;;
  Ok (beta, r2).

Definition fit_with_intercept (x y : list F) : result (F * F * F) :=
  ba <- linalg_lstsq ext x y ;;
  let '(b, a) := ba in
  let yhat := map (fun v => fadd (fmul b v) a) x in
  r2 <- r2_score y yhat ;;
  Ok (b, a, r2).


(** *** The rotation curves of [main] *)

Record RawRow : Type := {
  raw_condition : string;
  raw_replicate : nat;
  raw_n : nat;
  raw_k : nat;
  raw_theta : F;
  raw_theta2 : F;
  raw_C : F;
  raw_E : F
}.

Definition k_small : list nat := [0; 1; 2; 3; 4; 5; 6; 8; 10; 12; 16; 20; 24; 28; 32]%nat.
Definition k_out (p : Params F) : list nat := [(n p / 8)%nat].
Definition k_grid (p : Params F) : list nat := (k_small ++ k_out p)%list.

(** The levels of the corrupted conditions, in hundredths: a level [c]
    is the literal [c/100] of the source and prints as [fmt_2f c] under
    the format [:.2f]. *)
Definition noise_sigmas : list nat := [5; 10; 30]%nat.
Definition bitflip_ps : list nat := [1; 2; 5; 10]%nat.
Definition level (c : nat) : F := of_Q (Z.of_nat c) 100.
Definition fmt_2f (c : nat) : string :=
  pretty (c / 100)%nat ++ "." ++ pretty (c / 10 mod 10)%nat ++ pretty (c mod 10)%nat.

Definition theta_of (p : Params F) (k : nat) : result F :=
  py_div (fmul (fmul (of_Z 2) (math_pi ext)) (of_nat k)) (of_nat (n p)).

Definition make_row (p : Params F) (cname : string) (rep k : nat) (theta C : F) : RawRow := {|
  raw_condition := cname;
  raw_replicate := rep;
  raw_n := n p;
  raw_k := k;
  raw_theta := theta;
  raw_theta2 := fmul theta theta;
  raw_C := C;
  raw_E := fsub (of_Z 2) (fmul (of_Z 2) C)
|}.

(** The loop over [k_grid] of a condition that draws nothing: coherent_soft,
    coherent_bin, random_bin and palindrome_bin_no_coherence. *)
Definition plain_curve (p : Params F) (cname : string) (rep : nat) (x : list F)
  : result (list RawRow) :=
  rmap (fun k =>
          theta <- theta_of p k ;;
          let xk := np_roll_left x k in
          Ok (make_row p cname rep k theta (corr_mean x xk)))
       (k_grid p).

Definition noise_point (p : Params F) (cname : string) (rep : nat) (x : list F)
  (sigma : F) (k : nat) (g : G) : result (RawRow * G) :=
  theta <- theta_of p k ;;
  let xk := np_roll_left x k in
  let '(noise, g') := rng_normal ext (of_Z 0) sigma (n p) g in
  if negb (length xk =? length noise)%nat then Raise ValueError
  else
    xk_noisy <- unit_rms (zip_with fadd xk noise) ;;
    Ok (make_row p cname rep k theta (corr_mean x xk_noisy), g').

Definition noise_curve (p : Params F) (rep : nat) (x : list F) (c : nat) (g : G)
  : result (list RawRow * G) :=
  let cname := "coherent_soft_noise_sigma" ++ fmt_2f c in
  for_each (noise_point p cname rep x (level c)) (k_grid p) g.

Definition bitflip_point (p : Params F) (cname : string) (rep : nat) (xb : list F)
  (prob : F) (k : nat) (g : G) : result (RawRow * G) :=
  theta <- theta_of p k ;;
  let xk := np_roll_left xb k in
  let '(u, g') := rng_random ext (n p) g in
  if negb (length xk =? length u)%nat then Raise IndexError
  else
    let xk := zip_with (fun v r => if fltb r prob then fmul v (of_Z (-1)) else v) xk u in
    Ok (make_row p cname rep k theta (corr_mean xb xk), g').

Definition bitflip_curve (p : Params F) (rep : nat) (xb : list F) (c : nat) (g : G)
  : result (list RawRow * G) :=
  let cname := "coherent_bin_bitflip_p" ++ fmt_2f c in
  for_each (bitflip_point p cname rep xb (level c)) (k_grid p) g.

(** The body of [for rep in range(p.replicates)]. *)
Definition replicate_rows (fuel : nat) (p : Params F) (rep : nat) (g : G)
  : result (list RawRow * Coherence F * G) :=
  xcg <- generate_coherent_soft fuel g p ;;
  let '(x, coh, g) := xcg in
  let xb := to_bin x in
  soft <- plain_curve p "coherent_soft" rep x ;;
  noisy <- for_each (noise_curve p rep x) noise_sigmas g ;;
  let '(noisy, g) := noisy in
  bin <- plain_curve p "coherent_bin" rep xb ;;
  flipped <- for_each (bitflip_curve p rep xb) bitflip_ps g ;;
  let '(flipped, g) := flipped in
  let '(xrand, g) := rng_choice ext [of_Z (-1); of_Z 1] (n p) g in
  rand <- plain_curve p "random_bin" rep xrand ;;
  let '(half, g) := rng_choice ext [of_Z (-1); of_Z 1] (n p / 2) g in
  let xpal := (half ++ rev half)%list in
  pal <- plain_curve p "palindrome_bin_no_coherence" rep xpal ;;
  Ok ((soft ++ concat noisy ++ bin ++ concat flipped ++ rand ++ pal)%list, coh, g).

(** [rows] and [coh_rows] after the loop over the replicates. *)
Definition main_rows (fuel : nat) (p : Params F) (g : G)
  : result (list RawRow * list (nat * Coherence F) * G) :=
  out <- for_each (fun rep g =>
                     rcg <- replicate_rows fuel p rep g ;;
                     let '(rows, coh, g') := rcg in
                     Ok ((rows, (rep, coh)), g'))
                  (seq 0 (replicates p)) g ;;
  Ok (concat (map fst (fst out)), map snd (fst out), snd out).

(** *** The fits of [main], per condition and replicate *)

Record FitRow : Type := {
  fit_condition : string;
  fit_replicate : nat;
  beta_origin : F;
  r2_origin : F;
  slope : F;
  intercept : F;
  r2 : F;
  E0 : F;
  beta_origin_delta : F;
  r2_origin_delta : F
}.

Definition k_le (a b : RawRow) : Prop := (raw_k a <= raw_k b)%nat.

#[local] Instance k_le_dec : RelDecision k_le.
Proof.
  intros a b. unfold k_le. apply _.
Defined.

(** The body of [for rep in range(p.replicates)] inside [for cond in
    conditions]; [dcond] holds the rows of the condition. *)
Definition fit_one (cond : string) (rep : nat) (dcond : list RawRow) : result FitRow :=
  let drep := filter (fun r => raw_replicate r = rep) dcond in
  let drep_small := merge_sort k_le (filter (fun r => raw_k r ∈ k_small) drep) in
  let x := map raw_theta2 drep_small in
  let y := map raw_E drep_small in
  o <- fit_through_origin x y ;;
  l <- fit_with_intercept x y ;;
  let drep_small_pos := filter (fun r => (0 < raw_k r)%nat) drep_small in
  let x_pos := map raw_theta2 drep_small_pos in
  e0 <- match filter (fun r => raw_k r = 0%nat) drep_small with
        | r :: _ => Ok (raw_E r)
        | [] => Raise IndexError
        end ;;
  let y_pos := map (fun r => fsub (raw_E r) e0) drep_small_pos in
  d <- fit_through_origin x_pos y_pos ;;
  Ok {| fit_condition := cond;
        fit_replicate := rep;
        beta_origin := fst o;
        r2_origin := snd o;
        slope := fst (fst l);
        intercept := snd (fst l);
        r2 := snd l;
        E0 := e0;
        beta_origin_delta := fst d;
        r2_origin_delta := snd d |}.

(** [fit_rows]; a frame built from no row has no column "condition". *)
Definition fit_rows (p : Params F) (rows : list RawRow) : result (list FitRow) :=
  match rows with
  | [] => Raise KeyError
  | _ =>
      let conditions := sorted_unique (map raw_condition rows) in
      per_cond <- rmap (fun cond =>
                          let dcond := filter (fun r => raw_condition r = cond) rows in
                          rmap (fun rep => fit_one cond rep dcond) (seq 0 (replicates p)))
                       conditions ;;
      Ok (concat per_cond)
  end.

(** *** The summaries *)

Definition fit_summary_columns : list (string * (list FitRow -> F)) := [
  ("beta_origin_mean", fun g => agg_mean (map beta_origin g));
  ("beta_origin_std", fun g => agg_std (map beta_origin g));
  ("r2_origin_mean", fun g => agg_mean (map r2_origin g));
  ("r2_origin_std", fun g => agg_std (map r2_origin g));
  ("slope_mean", fun g => agg_mean (map slope g));
  ("slope_std", fun g => agg_std (map slope g));
  ("intercept_mean", fun g => agg_mean (map intercept g));
  ("intercept_std", fun g => agg_std (map intercept g));
  ("r2_mean", fun g => agg_mean (map r2 g));
  ("r2_std", fun g => agg_std (map r2 g));
  ("E0_mean", fun g => agg_mean (map E0 g));
  ("E0_std", fun g => agg_std (map E0 g));
  ("beta_origin_delta_mean", fun g => agg_mean (map beta_origin_delta g));
  ("beta_origin_delta_std", fun g => agg_std (map beta_origin_delta g));
  ("r2_origin_delta_mean", fun g => agg_mean (map r2_origin_delta g));
  ("r2_origin_delta_std", fun g => agg_std (map r2_origin_delta g))
].

(** [df_fit.groupby("condition", as_index=False).agg(...)]. *)
Definition fit_summary (fits : list FitRow) : DataFrame F := {|
  columns := "condition" :: map fst fit_summary_columns;
  records :=
    map (fun cond =>
           let g := filter (fun r => fit_condition r = cond) fits in
           <["condition" := JStr cond]>
             (list_to_map (map (fun cf => (fst cf, JNum (snd cf g))) fit_summary_columns)))
        (sorted_unique (map fit_condition fits))
|}.

Definition key_le (a b : string * nat) : Prop :=
  String.ltb (fst a) (fst b) = true \/ (fst a = fst b /\ (snd a <= snd b)%nat).

#[local] Instance key_le_dec : RelDecision key_le.
Proof.
  intros a b. unfold key_le. apply _.
Defined.

(** [df_raw.groupby(["condition", "k"], as_index=False).agg(...)]. *)
Definition summary_by_condition_and_k (rows : list RawRow) : DataFrame F := {|
  columns := ["condition"; "k"; "theta"; "theta2"; "C_mean"; "C_std"; "E_mean"; "E_std"; "n_rows"];
  records :=
    map (fun key =>
           let g := filter (fun r => (raw_condition r, raw_k r) = key) rows in
           list_to_map [
             ("condition", JStr (fst key));
             ("k", JNum (of_nat (snd key)));
             ("theta", JNum (agg_mean (map raw_theta g)));
             ("theta2", JNum (agg_mean (map raw_theta2 g)));
             ("C_mean", JNum (agg_mean (map raw_C g)));
             ("C_std", JNum (agg_std (map raw_C g)));
             ("E_mean", JNum (agg_mean (map raw_E g)));
             ("E_std", JNum (agg_std (map raw_E g)));
             ("n_rows", JNum (agg_size (map raw_E g)))])
        (merge_sort key_le (remove_dups (map (fun r => (raw_condition r, raw_k r)) rows)))
|}.

(** [pd.DataFrame(rows)], [pd.DataFrame(fit_rows)], [pd.DataFrame(coh_rows)]:
    a frame built from no dictionary has no column. *)
Definition frame_of {A} (cols : list string) (to_dict : A -> gmap string (json F)) (l : list A)
  : DataFrame F :=
  {| columns := match l with [] => [] | _ => cols end; records := map to_dict l |}.

Definition raw_frame : list RawRow -> DataFrame F :=
  frame_of ["condition"; "replicate"; "n"; "k"; "theta"; "theta2"; "C"; "E"]
    (fun r => list_to_map [
       ("condition", JStr (raw_condition r));
       ("replicate", JNum (of_nat (raw_replicate r)));
       ("n", JNum (of_nat (raw_n r)));
       ("k", JNum (of_nat (raw_k r)));
       ("theta", JNum (raw_theta r));
       ("theta2", JNum (raw_theta2 r));
       ("C", JNum (raw_C r));
       ("E", JNum (raw_E r))]).

Definition fit_frame : list FitRow -> DataFrame F :=
  frame_of ["condition"; "replicate"; "beta_origin"; "r2_origin"; "slope"; "intercept";
            "r2"; "E0"; "beta_origin_delta"; "r2_origin_delta"]
    (fun r => list_to_map [
       ("condition", JStr (fit_condition r));
       ("replicate", JNum (of_nat (fit_replicate r)));
       ("beta_origin", JNum (beta_origin r));
       ("r2_origin", JNum (r2_origin r));
       ("slope", JNum (slope r));
       ("intercept", JNum (intercept r));
       ("r2", JNum (r2 r));
       ("E0", JNum (E0 r));
       ("beta_origin_delta", JNum (beta_origin_delta r));
       ("r2_origin_delta", JNum (r2_origin_delta r))]).

Definition coh_frame : list (nat * Coherence F) -> DataFrame F :=
  frame_of ["replicate"; "lambda"; "mean"; "sign_changes_half"]
    (fun rc => list_to_map [
       ("replicate", JNum (of_nat (fst rc)));
       ("lambda", JNum (coh_lambda (snd rc)));
       ("mean", JNum (coh_mean (snd rc)));
       ("sign_changes_half", JNum (of_nat (coh_sign_changes_half (snd rc))))]).

(** *** [main]: the files written, and the run log

    A name the module never binds, read at run time, raises [NameError]:
    [module_globals] lists what the import statements and the definitions of
    run_v6_2_experiment.py bind. [Host] holds what the run log would take from
    the machine. Paths are relative to [--out_root]. *)

Definition module_globals : list string := [
  "annotations"; "argparse"; "math"; "os"; "platform"; "dataclass";
  "datetime"; "timezone"; "np"; "pd";
  "Params"; "unit_rms"; "low_freq_ratio"; "sign_changes_half";
  "generate_coherent_soft"; "to_bin"; "corr_mean"; "r2_score";
  "fit_through_origin"; "fit_with_intercept"; "main"
].

Definition global_name (name : string) : result unit :=
  if decide (name ∈ module_globals) then Ok tt else Raise NameError.

Record Host : Type := {
  now_utc : string;
  python_version : string;
  platform_name : string;
  numpy_version : string;
  pandas_version : string
}.

Definition params_dict (p : Params F) : json F := JDict [
  ("n", JNum (of_nat (n p)));
  ("replicates", JNum (of_nat (replicates p)));
  ("seed", JNum (of_Z (seed p)));
  ("band", JNum (band p));
  ("lambda_threshold", JNum (lambda_threshold p));
  ("mean_abs_max", JNum (mean_abs_max p));
  ("sign_changes_min", JNum (of_Z (sign_changes_min p)));
  ("sign_changes_max", JNum (of_Z (sign_changes_max p)));
  ("p_spectrum", JNum (p_spectrum p))
].

(** The dictionary [meta], its entries evaluated in the order written. *)
Definition runlog_meta (host : Host) (p : Params F) : result (json F) :=
  _ <- global_name "datetime" ;;
  _ <- global_name "timezone" ;;
  _ <- global_name "sys" ;;
  _ <- global_name "platform" ;;
  _ <- global_name "np" ;;
  _ <- global_name "pd" ;;
  Ok (JDict [
    ("timestamp_utc", JStr (now_utc host));
    ("params", params_dict p);
    ("k_small", JList (map (fun k => JNum (of_nat k)) k_small));
    ("k_out", JList (map (fun k => JNum (of_nat k)) (k_out p)));
    ("python", JStr (python_version host));
    ("platform", JStr (platform_name host));
    ("numpy", JStr (numpy_version host));
    ("pandas", JStr (pandas_version host))
  ]).

Definition raw_path : string := "data/raw_v6_2_all_conditions.csv".
Definition fit_path : string := "data/fit_v6_2_per_replicate.csv".
Definition summary_path : string := "results/summary_by_condition_and_k.csv".
Definition fit_sum_path : string := "results/fit_summary_by_condition.csv".
Definition coh_path : string := "data/coherence_metrics_per_replicate.csv".
Definition log_path : string := "logs/runlog_v6_2.txt".

(** The tables of a run, up to the comment "# Write". *)
Definition main_tables (fuel : nat) (p : Params F) (g : G)
  : result (list RawRow * list (nat * Coherence F) * list FitRow) :=
  rcg <- main_rows fuel p g ;;
  let '(rows, coh_rows, _) := rcg in
  fits <- fit_rows p rows ;;
  Ok (rows, coh_rows, fits).

(** [main]: the exit status (or the exception that ends the process), the
    lines printed, and the files of [out_root] afterwards. *)
Definition main (host : Host) (fuel : nat) (files : gmap string (file F))
  : result Z * list string * gmap string (file F) :=
  let p := default_Params in
  let rng := default_rng ext (seed p) in
  match main_tables fuel p rng with
  | Ok (rows, coh_rows, fits) =>
      let files := <[raw_path := Csv (raw_frame rows)]> files in
      let files := <[fit_path := Csv (fit_frame fits)]> files in
      let files := <[summary_path := Csv (summary_by_condition_and_k rows)]> files in
      let files := <[fit_sum_path := Csv (fit_summary fits)]> files in
      let files := <[coh_path := Csv (coh_frame coh_rows)]> files in
      match runlog_meta host p with
      | Ok meta =>
          let files := <[log_path := Text ""]> files in
          match global_name "json" with
          | Ok _ =>
              (Ok 0%Z,
               ["Wrote:"; raw_path; fit_path; coh_path; summary_path; fit_sum_path; log_path],
               <[log_path := Json meta]> files)
          | Raise e => (Raise e, [], files)
          | OutOfFuel => (OutOfFuel, [], files)
          end
      | Raise e => (Raise e, [], files)
      | OutOfFuel => (OutOfFuel, [], files)
      end
  | Raise e => (Raise e, [], files)
  | OutOfFuel => (OutOfFuel, [], files)
  end.

End Engine.
End Engine.

(** ** run_experiment.py

    The file system is a finite map from a path, relative to the directory of
    the script, to what the path holds; directories are implied by the paths
    below them. *)

Module Runner.

Section Runner.
Context {F : Type} `{Float64 F}.
(** Python's [float] on text, as in [float_of_json]. *)
Context (float_of_str : string -> option F).

Definition KIT_VERSION : string := "6.2.S".

Definition DOIS : list (string * string) := [
  ("v6.1_rerelease", "10.5281/zenodo.18452987");
  ("v6.2_experiment", "10.5281/zenodo.18453525");
  ("v6.16", "10.5281/zenodo.17299194");
  ("v6.2S_student_kit", "10.5281/zenodo.18665841")
].

Definition REPO_BASE : string := "https://github.com/A-F-Slot/digital-rotation".
Definition REPO_PATH_V62 : string := REPO_BASE ++ "/tree/main/V6-2".
Definition REPO_PATH_V62S : string := REPO_BASE ++ "/tree/main/V6-2-S".

Definition TOL : list (string * F) := [
  ("R2_mean_abs", of_Q 5 100);
  ("R2_std_abs", of_Q 3 100);
  ("beta_origin_mean_rel", of_Q 12 100);
  ("R2_origin_mean_abs", of_Q 20 100)
].

Definition NEG_CONTROL : list (string * F) := [
  ("R2_mean_max", of_Q 20 100);
  ("R2_origin_mean_max", of_Q 20 100)
].

(** [d[key]] on one of the dictionaries above. *)
Definition dict_getitem {A} (d : list (string * A)) (key : string) : result A :=
  match assoc d key with
  | Some v => Ok v
  | None => Raise KeyError
  end.

Definition fit_summary_csv : string := "paper_ready/tables/fit_summary_by_condition.csv".
Definition reference_json : string := "reference_metrics_v6_2.json".
Definition verdict_txt : string := "paper_ready/verdict.txt".
Definition verdict_details_json : string := "paper_ready/verdict_details.json".

(** A file of another kind than the one asked for is taken to be refused by
    the parser ([ParserError] and [JSONDecodeError] are [ValueError]s). *)
Definition load_fit_summary (files : gmap string (file F)) : result (DataFrame F) :=
  match files !! fit_summary_csv with
  | None => Raise FileNotFoundError
  | Some (Csv df) => Ok df
  | Some _ => Raise ValueError
  end.

Definition load_reference (files : gmap string (file F)) : result (json F) :=
  match files !! reference_json with
  | None => Raise FileNotFoundError
  | Some (Json v) => Ok v
  | Some _ => Raise ValueError
  end.

Definition within (val ref : json F) (abs_tol rel_tol : option F) : result bool :=
  match abs_tol with
  | Some tol =>
      v <- float_of_json float_of_str val ;;
      r <- float_of_json float_of_str ref ;;
      Ok (fleb (fabs (fsub v r)) tol)
  | None =>
      match rel_tol with
      | Some tol =>
          r <- float_of_json float_of_str ref ;;
          if feqb r (of_Z 0) then
            v <- float_of_json float_of_str val ;;
            Ok (fleb (fabs v) tol)
          else
            v <- float_of_json float_of_str val ;;
            q <- py_div (fabs (fsub v r)) (fabs r) ;;
            Ok (fleb q tol)
      | None => Raise ValueError
      end
  end.

(** [cell == cond] for a cell of the column "condition". *)
Definition cell_is (cond : string) (c : option (json F)) : bool :=
  match c with
  | Some (JStr s) => String.eqb s cond
  | _ => false
  end.

(** The inner function [row] of [compute_verdict]. *)
Definition row (df : DataFrame F) (cond : string) : result (gmap string (json F)) :=
  if decide ("condition" ∈ columns df) then
    match filter (fun r => cell_is cond (r !! "condition") = true) (records df) with
    | [r] => Ok r
    | _ => Raise ValueError
    end
  else Raise KeyError.

Definition abs_check (name field tol_key : string) (clean : gmap string (json F))
  (ref_clean : json F) : result (string * bool) :=
  v <- getitem clean field ;;
  r <- json_getitem ref_clean field ;;
  tol <- dict_getitem TOL tol_key ;;
  ok <- within v r (Some tol) None ;;
  Ok (name, ok).

Definition rel_check (name field tol_key : string) (clean : gmap string (json F))
  (ref_clean : json F) : result (string * bool) :=
  v <- getitem clean field ;;
  r <- json_getitem ref_clean field ;;
  tol <- dict_getitem TOL tol_key ;;
  ok <- within v r None (Some tol) ;;
  Ok (name, ok).

Definition ceiling_check (name field max_key : string) (control : gmap string (json F))
  : result (string * bool) :=
  c <- getitem control field ;;
  v <- float_of_json float_of_str c ;;
  top <- dict_getitem NEG_CONTROL max_key ;;
  Ok (name, fleb v top).

(** The list [checks], in the order of the [append]s. *)
Definition verdict_checks (clean rand pal : gmap string (json F)) (ref_clean : json F)
  : result (list (string * bool)) :=
  c1 <- abs_check "clean.R2_mean" "R2_mean" "R2_mean_abs" clean ref_clean ;;
  c2 <- abs_check "clean.R2_std" "R2_std" "R2_std_abs" clean ref_clean ;;
  c3 <- rel_check "clean.beta_origin_mean" "beta_origin_mean" "beta_origin_mean_rel"
          clean ref_clean ;;
  c4 <- abs_check "clean.R2_origin_mean" "R2_origin_mean" "R2_origin_mean_abs"
          clean ref_clean ;;
  c5 <- ceiling_check "random.R2_mean_fail" "R2_mean" "R2_mean_max" rand ;;
  c6 <- ceiling_check "random.R2_origin_mean_fail" "R2_origin_mean" "R2_origin_mean_max" rand ;;
  c7 <- ceiling_check "palindrome.R2_mean_fail" "R2_mean" "R2_mean_max" pal ;;
  c8 <- ceiling_check "palindrome.R2_origin_mean_fail" "R2_origin_mean" "R2_origin_mean_max"
          pal ;;
  Ok [c1; c2; c3; c4; c5; c6; c7; c8].

Definition passed (checks : list (string * bool)) : bool := forallb snd checks.

Definition verdict_token (checks : list (string * bool)) : string :=
  if passed checks then "PASS" else "FAIL".

Definition json_of_dict {A} (f : A -> json F) (d : list (string * A)) : json F :=
  JDict (map (fun kv => (fst kv, f (snd kv))) d).

(** A row of the table as a dictionary (in the order of the finite map). *)
Definition json_of_row (r : gmap string (json F)) : json F := JDict (map_to_list r).

(** The dictionary [details]. *)
Definition details_of (checks : list (string * bool)) (clean rand pal : gmap string (json F))
  (ref_clean : json F) : json F :=
  JDict [
    ("verdict", JStr (verdict_token checks));
    ("tolerances", JDict [("TOL", json_of_dict JNum TOL);
                          ("NEG_CONTROL", json_of_dict JNum NEG_CONTROL)]);
    ("dois", json_of_dict JStr DOIS);
    ("repo", JDict [("base", JStr REPO_BASE); ("v6.2", JStr REPO_PATH_V62);
                    ("v6.2.S", JStr REPO_PATH_V62S)]);
    ("checks", JList (map (fun c => JDict [("name", JStr (fst c)); ("ok", JBool (snd c))])
                          checks));
    ("measured", JDict [("coherent_bin_clean", json_of_row clean);
                        ("random_bin", json_of_row rand);
                        ("palindrome_bin_no_coherence", json_of_row pal)]);
    ("reference", JDict [("coherent_bin_clean", ref_clean)])
  ].

(** [compute_verdict], up to the two files it writes. *)
Definition verdict_details (files : gmap string (file F)) : result (json F) :=
  df <- load_fit_summary files ;;
  ref <- load_reference files ;;
  clean <- row df "coherent_bin_clean" ;;
  rand <- row df "random_bin" ;;
  pal <- row df "palindrome_bin_no_coherence" ;;
  ref_clean <- json_getitem ref "coherent_bin_clean" ;;
  checks <- verdict_checks clean rand pal ref_clean ;;
  Ok (details_of checks clean rand pal ref_clean).

Definition nl : string := String (ascii_of_nat 10) EmptyString.

Definition compute_verdict (files : gmap string (file F))
  : result (json F) * gmap string (file F) :=
  match verdict_details files with
  | Ok details =>
      match json_getitem details "verdict" with
      | Ok (JStr v) =>
          let files := <[verdict_txt := Text (v ++ nl)]> files in
          let files := <[verdict_details_json := Json details]> files in
          (Ok details, files)
      | Ok _ => (Raise TypeError, files)
      | Raise e => (Raise e, files)
      | OutOfFuel => (OutOfFuel, files)
      end
  | Raise e => (Raise e, files)
  | OutOfFuel => (OutOfFuel, files)
  end.

(** *** Files under a directory *)

Fixpoint strip_prefix (pre s : string) : option string :=
  match pre with
  | EmptyString => Some s
  | String a pre' =>
      match s with
      | String b s' => if Ascii.eqb a b then strip_prefix pre' s' else None
      | EmptyString => None
      end
  end.

Definition ends_with (suffix s : string) : bool :=
  String.prefix (String.rev suffix) (String.rev s).

Definition is_name (s : string) : bool :=
  match index 0 "/" s with
  | None => true
  | Some _ => false
  end.

(** The files below directory [dir] (written with its final slash), by their
    paths relative to it; the files elsewhere; and a tree put in place of
    whatever [dir] held. *)
Definition under (dir : string) (files : gmap string (file F)) : gmap string (file F) :=
  list_to_map
    (omap (M := list)
          (fun kv => match strip_prefix dir (fst kv) with
                     | Some rel => Some (rel, snd kv)
                     | None => None
                     end)
          (map_to_list files)).

Definition outside (dir : string) (files : gmap string (file F)) : gmap string (file F) :=
  filter (fun kv => strip_prefix dir (fst kv) = None) files.

Definition mount (dir : string) (tree files : gmap string (file F)) : gmap string (file F) :=
  list_to_map (map (fun kv => (dir ++ fst kv, snd kv)) (map_to_list tree)) ∪ outside dir files.

(** [for p in src.glob("*" + suffix): shutil.copy2(p, dst / p.name)]. *)
Definition copy_glob (src suffix dst : string) (files : gmap string (file F))
  : gmap string (file F) :=
  foldr (fun kv acc => <[dst ++ fst kv := snd kv]> acc) files
        (filter (fun kv => (is_name (fst kv) && ends_with suffix (fst kv)) = true)
                (map_to_list (under src files))).

(** [if src.exists(): rmtree(dst) if it exists; copytree(src, dst)]. *)
Definition copy_tree (src dst : string) (files : gmap string (file F))
  : gmap string (file F) :=
  if decide (under src files = ∅) then files
  else mount dst (under src files) files.

Section Main.
Context {G : Type} (ext : External F G) (host : Engine.Host).
(** [sha256_file], from hashlib. *)
Context (sha256_file : file F -> string).

Definition vendor_dir : string := "vendor/v6_2_artifact_pack/".

Definition exn_name (e : exn) : string :=
  match e with
  | ZeroDivisionError => "ZeroDivisionError"
  | FloatingPointError => "FloatingPointError"
  | ValueError => "ValueError"
  | KeyError => "KeyError"
  | IndexError => "IndexError"
  | RuntimeError => "RuntimeError"
  | NameError => "NameError"
  | AttributeError => "AttributeError"
  | FileNotFoundError => "FileNotFoundError"
  | TypeError => "TypeError"
  | IsADirectoryError => "IsADirectoryError"
  end.

Definition lines (l : list string) : string :=
  foldr (fun s acc => s ++ nl ++ acc) "" l.

(** [run_v6_2_engine]: the engine runs as a process in the vendored pack and
    writes below it; an exception that ends the process gives exit status 1
    and its name on the error stream. *)
Definition run_v6_2_engine (fuel : nat) (files : gmap string (file F))
  : result unit * gmap string (file F) :=
  match files !! (vendor_dir ++ "code/run_v6_2_experiment.py") with
  | None => (Raise FileNotFoundError, files)
  | Some _ =>
      let '(status, stdout, tree) := Engine.main ext host fuel (under vendor_dir files) in
      match status with
      | OutOfFuel => (OutOfFuel, files)
      | _ =>
          let returncode := match status with Ok z => z | _ => 1%Z end in
          let stderr := match status with Raise e => exn_name e | _ => "" end in
          let files := mount vendor_dir tree files in
          let files := <["paper_ready/engine_stdout.txt" := Text (lines stdout)]> files in
          let files := <["paper_ready/engine_stderr.txt" := Text stderr]> files in
          if (returncode =? 0)%Z then (Ok tt, files) else (Raise RuntimeError, files)
      end
  end.

Definition copy_outputs (files : gmap string (file F)) : gmap string (file F) :=
  let files := copy_glob (vendor_dir ++ "figures/") ".png" "paper_ready/figures/" files in
  let files := copy_glob (vendor_dir ++ "results/") ".csv" "paper_ready/tables/" files in
  let files := copy_tree (vendor_dir ++ "manifests/") "paper_ready/support/manifests/" files in
  copy_tree (vendor_dir ++ "logs/") "paper_ready/support/logs/" files.

Definition doi (key : string) : string :=
  match assoc DOIS key with
  | Some v => v
  | None => ""
  end.

(** [write_methods_results]; the timestamp comes from the host. *)
Definition write_methods_results (verdict_details : json F) (files : gmap string (file F))
  : result unit * gmap string (file F) :=
  match json_getitem verdict_details "verdict" with
  | Ok (JStr v) =>
      let files := <["paper_ready/run_manifest.json" := Json (JDict [
        ("kit_version", JStr KIT_VERSION);
        ("timestamp_utc", JStr (Engine.now_utc host));
        ("engine", JStr "GTUD Digital Rotation v6.2 (bundled artifact pack)");
        ("dois", json_of_dict (fun d => JStr ("https://doi.org/" ++ d)) DOIS);
        ("repo", JDict [("base", JStr REPO_BASE); ("v6.2", JStr REPO_PATH_V62);
                        ("v6.2.S", JStr REPO_PATH_V62S)]);
        ("scope", JStr "Digital instantiation replication/robustness suite; not direct physical confirmation.");
        ("verdict", JStr v)])]> files in
      let files := <["paper_ready/citation_block.txt" := Text (
        "APA:" ++ nl ++
        "Slot, A. F. (2026). GTUD Digital Rotation experiment v6.2: Experimental Validation Package. https://doi.org/" ++ doi "v6.2_experiment" ++ nl ++
        "Slot, A. F. (2026). GTUD v6.16: Time as Rotation Field and Quadratic Torsion in the Digital Domain. https://doi.org/" ++ doi "v6.16" ++ nl ++
        "Slot, A. F. (2026). GTUD Digital Rotation v6.2.S: Student Replication and Extension Suite. https://doi.org/" ++ doi "v6.2S_student_kit" ++ nl ++
        nl ++ "GitHub:" ++ nl ++
        "v6.2 code path: " ++ REPO_PATH_V62 ++ nl ++
        "v6.2.S kit path: " ++ REPO_PATH_V62S ++ nl)]> files in
      let files := <["paper_ready/methods_ready.md" := Text (
        "Methods (v6.2.S): This replication runs the authentic GTUD Digital Rotation v6.2 experiment" ++ nl ++
        "(DOI: https://doi.org/" ++ doi "v6.2_experiment" ++ ") and packages outputs for student publication." ++ nl ++
        "Core parameters (per v6.2): n=512; replicates=120; seed=42; band=0.08; lambda_threshold=0.75." ++ nl ++
        "Quality gate (per v6.2 code): lambda_threshold=0.75, mean_abs_max=0.10, sign_changes in [2,200]." ++ nl ++
        "Verdict rule: combined (A) reference-matching for coherent_bin_clean + (B) negative controls must fail." ++ nl)]> files in
      let files := <["paper_ready/results_ready.md" := Text (
        "Results (v6.2.S): Canonical v6.2 figures and tables were generated and are available in paper_ready/." ++ nl ++
        "Verdict: " ++ v ++ "." ++ nl ++
        "See paper_ready/verdict_details.json for measured values, tolerances, and control checks." ++ nl)]> files in
      (Ok tt, files)
  | Ok _ => (Raise TypeError, files)
  | Raise e => (Raise e, files)
  | OutOfFuel => (OutOfFuel, files)
  end.

(** [write_hashes]: one line per file below paper_ready, in path order. *)
Definition write_hashes (files : gmap string (file F)) : gmap string (file F) :=
  let listed := merge_sort str_le (map fst (map_to_list (under "paper_ready/" files))) in
  let line rel :=
    match files !! ("paper_ready/" ++ rel) with
    | Some f => rel ++ "  " ++ sha256_file f
    | None => rel
    end in
  <["paper_ready/hashes.txt" := Text (String.concat nl (map line listed) ++ nl)]> files.

(** [main]: what it raises or returns, what it prints, and the files after. *)
Definition main (fuel : nat) (files : gmap string (file F))
  : result unit * list string * gmap string (file F) :=
  match run_v6_2_engine fuel files with
  | (Ok _, files) =>
      let files := copy_outputs files in
      match compute_verdict files with
      | (Ok details, files) =>
          match write_methods_results details files with
          | (Ok _, files) => (Ok tt, ["Done. See paper_ready/"], write_hashes files)
          | (Raise e, files) => (Raise e, [], files)
          | (OutOfFuel, files) => (OutOfFuel, [], files)
          end
      | (Raise e, files) => (Raise e, [], files)
      | (OutOfFuel, files) => (OutOfFuel, [], files)
      end
  | (Raise e, files) => (Raise e, [], files)
  | (OutOfFuel, files) => (OutOfFuel, [], files)
  end.

End Main.

End Runner.
End Runner.

(** ** tools/check_official_replication.py

    The checker reads its directory as text. An entry of the directory is a
    file, given by its text and by what [json.loads] makes of that text (a
    value, or the message of the exception it raises), or a subdirectory,
    given by the message of the error that reading it as a file raises.
    Python's [str] on a value that is not a string, and [str.upper] on text
    that is not ASCII, are taken from outside. *)

Module Checker.

Inductive entry (F : Type) : Type :=
| EFile (text : string) (loads : json F + string)
| EDir (oserror : string).
Arguments EFile {F} text loads.
Arguments EDir {F} oserror.

Section Checker.
Context {F : Type} `{Float64 F}.
Context (str_of_value : json F -> string).

Definition REQUIRED : list string := [
  "verdict_details.json";
  "run_manifest.json";
  "hashes.txt";
  "tables/fit_summary_by_condition.csv"
].

Definition EXPECTED_CONDITIONS : list string := [
  "coherent_bin_clean";
  "random_bin";
  "palindrome_bin_no_coherence"
].

Definition read_text (e : entry F) : result string :=
  match e with
  | EFile text _ => Ok text
  | EDir _ => Raise IsADirectoryError
  end.

(** [needle in hay] on strings. *)
Fixpoint contains (needle hay : string) : bool :=
  String.prefix needle hay
  || match hay with
     | EmptyString => false
     | String _ hay' => contains needle hay'
     end.

(** [s.upper()]. Text is held as its UTF-8 bytes. On text that is all
    ASCII, [upper] maps the letters a-z to A-Z; on other text it is Python's
    Unicode mapping, taken from outside. *)
Context (upper_unicode : string -> string).

Definition upper_ascii (c : ascii) : ascii :=
  let k := nat_of_ascii c in
  if ((97 <=? k) && (k <=? 122))%nat then ascii_of_nat (k - 32) else c.

Fixpoint upper_ascii_text (s : string) : string :=
  match s with
  | EmptyString => EmptyString
  | String c s' => String (upper_ascii c) (upper_ascii_text s')
  end.

Fixpoint is_ascii (s : string) : bool :=
  match s with
  | EmptyString => true
  | String c s' => (nat_of_ascii c <? 128)%nat && is_ascii s'
  end.

Definition upper (s : string) : string :=
  if is_ascii s then upper_ascii_text s else upper_unicode s.

(** [bool(v)]. *)
Definition truthy (v : json F) : bool :=
  match v with
  | JNull => false
  | JBool b => b
  | JNum x => negb (feqb x (of_Z 0))
  | JStr s => negb (String.eqb s "")
  | JList l => match l with [] => false | _ => true end
  | JDict kvs => match kvs with [] => false | _ => true end
  end.

(** [v.get(key)]: only a dictionary has the method. *)
Definition get (v : json F) (key : string) : result (json F) :=
  match v with
  | JDict kvs =>
      match assoc kvs key with
      | Some x => Ok x
      | None => Ok JNull
      end
  | _ => Raise AttributeError
  end.

(** [a or b], the right operand evaluated only when the left one is falsy. *)
Definition or_else (a : json F) (b : result (json F)) : result (json F) :=
  if truthy a then Ok a else b.

Definition extract_status (verdict : json F) : result (json F) :=
  a <- get verdict "status" ;;
  or_else a (
    b <- get verdict "verdict" ;;
    or_else b (
      c <- get verdict "overall" ;;
      or_else c (get verdict "result"))).

Definition str (v : json F) : string :=
  match v with
  | JStr s => s
  | _ => str_of_value v
  end.

(** The lines printed for the status once every file has been found. *)
Definition decide_status (status : json F) : list string * Z :=
  let s := upper (str status) in
  if contains "PASS" s then (["OFFICIAL_REPLICATION_PASS"], 0%Z)
  else if contains "FAIL" s then (["OFFICIAL_REPLICATION_FAIL"], 0%Z)
  else (["OFFICIAL_REPLICATION (status=" ++ str status ++ ")"], 0%Z).

(** [main]: the lines printed and the exit status, or the exception that
    escapes. [argv] is [sys.argv] without the name of the script, and [base]
    the directory the argument names when it exists and is one. *)
Definition main (argv : list string) (base : option (gmap string (entry F)))
  : result (list string * Z) :=
  match argv with
  | [_] =>
      match base with
      | None => Ok (["NOT_COMPARABLE (paper_ready directory not found)"], 1%Z)
      | Some dir =>
          let missing := filter (fun rel => dir !! rel = None) REQUIRED in
          match missing with
          | _ :: _ =>
              Ok ("NOT_COMPARABLE (missing required files):"
                    :: map (fun m => " - " ++ m) missing, 1%Z)
          | [] =>
              match dir !! "verdict_details.json" with
              | None | Some (EDir _) | Some (EFile _ (inr _)) =>
                  let e := match dir !! "verdict_details.json" with
                           | Some (EDir msg) => msg
                           | Some (EFile _ (inr msg)) => msg
                           | _ => ""
                           end in
                  Ok (["NOT_COMPARABLE (cannot parse verdict_details.json): " ++ e], 1%Z)
              | Some (EFile _ (inl verdict)) =>
                  status <- extract_status verdict ;;
                  if negb (truthy status) then
                    Ok (["NOT_COMPARABLE (no status/verdict field in verdict_details.json)"], 1%Z)
                  else
                    csv_text <- match dir !! "tables/fit_summary_by_condition.csv" with
                                | Some e => read_text e
                                | None => Raise FileNotFoundError
                                end ;;
                    match filter (fun cond => contains cond csv_text = false)
                                 EXPECTED_CONDITIONS with
                    | cond :: _ =>
                        Ok (["NOT_COMPARABLE (missing condition in fit_summary_by_condition.csv): "
                               ++ cond], 1%Z)
                    | [] => Ok (decide_status status)
                    end
              end
          end
      end
  | _ => Ok (["Usage: python tools/check_official_replication.py <paper_ready_dir>"], 2%Z)
  end.

End Checker.
End Checker.

(** * Sample inputs on binary64

    Small inputs on which the definitions are run in the proofs below. Every
    number is a dyadic fraction, so that it is a float as written. *)

Definition sample_row (cond : string) (r2_mean r2_std beta r2_origin : float)
  : gmap string (json float) :=
  list_to_map [
    ("condition", JStr cond);
    ("R2_mean", JNum r2_mean);
    ("R2_std", JNum r2_std);
    ("beta_origin_mean", JNum beta);
    ("R2_origin_mean", JNum r2_origin)
  ].

Arguments sample_row cond (r2_mean r2_std beta r2_origin)%_float.

Definition sample_columns : list string :=
  ["condition"; "R2_mean"; "R2_std"; "beta_origin_mean"; "R2_origin_mean"].

Definition sample_summary : DataFrame float := {|
  columns := sample_columns;
  records := [
    sample_row "coherent_bin_clean" 0.875 0.0625 0.0625 0.75;
    sample_row "random_bin" 0.125 0.015625 2 0.0625;
    sample_row "palindrome_bin_no_coherence" 0.125 0.015625 2 0.125
  ]
|}.

(** The same table without its row "coherent_bin_clean". *)
Definition summary_without_clean : DataFrame float := {|
  columns := sample_columns;
  records := [
    sample_row "random_bin" 0.125 0.015625 2 0.0625;
    sample_row "palindrome_bin_no_coherence" 0.125 0.015625 2 0.125
  ]
|}.

(** A reference whose slope is exactly zero. *)
Definition sample_reference : json float :=
  JDict [("coherent_bin_clean",
          JDict [("R2_mean", JNum 0.875%float); ("R2_std", JNum 0.0625%float);
                 ("beta_origin_mean", JNum 0%float); ("R2_origin_mean", JNum 0.75%float)])].

Definition sample_files (df : DataFrame float) : gmap string (file float) :=
  list_to_map [
    (Runner.fit_summary_csv, Csv df);
    (Runner.reference_json, Json sample_reference)
  ].

(** A directory as the runner leaves it, whose verdict details hold the
    status "UNKNOWN"; [dq] is the double quote. *)
Definition dq : string := String (ascii_of_nat 34) EmptyString.

Definition unknown_details_text : string :=
  "{" ++ dq ++ "verdict" ++ dq ++ ": " ++ dq ++ "UNKNOWN" ++ dq ++ "}".

Definition unknown_directory : gmap string (Checker.entry float) :=
  list_to_map [
    ("verdict_details.json",
     Checker.EFile unknown_details_text (inl (JDict [("verdict", JStr "UNKNOWN")])));
    ("run_manifest.json", Checker.EFile "{}" (inl (JDict [])));
    ("hashes.txt", Checker.EFile "" (inr "Expecting value"));
    ("tables/fit_summary_by_condition.csv",
     Checker.EFile
       ("condition,R2_mean" ++ Runner.nl ++ "coherent_bin_clean,0.875" ++ Runner.nl
        ++ "random_bin,0.125" ++ Runner.nl ++ "palindrome_bin_no_coherence,0.125" ++ Runner.nl)
       (inr "Expecting value"))
  ].

(** A stand-in for Python's [str] on values that are not strings. *)
Definition sample_str_of_value (v : json float) : string := "<value>".

(** Stand-ins for [str.upper] on text that is not ASCII and for [float] on
    text; the samples hold no such text. *)
Definition sample_upper_unicode (s : string) : string := s.
Definition sample_float_of_str (s : string) : option float := None.

(** Stand-ins for what the engine takes from outside, on binary64. The
    generator is a counter of the draws made; the inverse transform returns
    the alternating sequence 1, -1, ... of the length asked for, and the
    forward transform the first [n/2 + 1] samples as real bins. *)
Definition alternating (m : nat) : list float :=
  map (fun i => if Nat.even i then 1%float else (-1)%float) (seq 0 m).

Definition sample_external : External float nat := {|
  math_pi := 0x1.921fb54442d18p+1%float;
  math_cos := fun _ => 1%float;
  math_sin := fun _ => 0%float;
  py_pow := fun _ _ => 1%float;
  fft_rfft := fun x => map (fun v => (v, 0%float)) (take (length x / 2 + 1)%nat x);
  fft_irfft := fun _ m => alternating m;
  linalg_lstsq := fun _ _ => Ok (0%float, 0%float);
  default_rng := fun _ => 0%nat;
  rng_uniform := fun lo _ g => (lo, S g);
  rng_normal := fun _ _ size g => (repeat 0%float size, S g);
  rng_random := fun size g => (repeat 0.5%float size, S g);
  rng_choice := fun _ size g => (repeat 1%float size, S g)
|}.

(** Parameters of a run on four samples, and the same with a window of sign
    changes that nothing can meet. *)
Definition small_Params : Engine.Params float := {|
  Engine.n := 4;
  Engine.replicates := 1;
  Engine.seed := 42;
  Engine.band := 0.5%float;
  Engine.lambda_threshold := 0.75%float;
  Engine.mean_abs_max := 0.125%float;
  Engine.sign_changes_min := 1;
  Engine.sign_changes_max := 200;
  Engine.p_spectrum := 2%float
|}.

Definition closed_Params : Engine.Params float := {|
  Engine.n := 4;
  Engine.replicates := 1;
  Engine.seed := 42;
  Engine.band := 0.5%float;
  Engine.lambda_threshold := 0.75%float;
  Engine.mean_abs_max := 0.125%float;
  Engine.sign_changes_min := 3;
  Engine.sign_changes_max := 2;
  Engine.p_spectrum := 2%float
|}.

(** * Properties

    ** Facts that hold for every instance of [Float64] *)

Section GenericFacts.
Context {F : Type} `{Float64 F}.

Lemma isnan_nan : isnan (nan : F) = true.
Proof.
  unfold isnan. now rewrite nan_not_eq.
Qed.

Lemma dropna_app (l1 l2 : list F) : dropna (l1 ++ l2) = (dropna l1 ++ dropna l2)%list.
Proof.
  unfold dropna. apply filter_app.
Qed.

Lemma dropna_nan (l : list F) : dropna (nan :: l) = dropna l.
Proof.
  unfold dropna. rewrite filter_cons.
  destruct (decide (isnan (nan : F) = false)) as [E|_]; [|reflexivity].
  rewrite isnan_nan in E. discriminate.
Qed.

Lemma dropna_skips_nan (l1 l2 : list F) :
  dropna (l1 ++ nan :: l2) = dropna (l1 ++ l2).
Proof.
  now rewrite !dropna_app, dropna_nan.
Qed.

Lemma dropna_length (l : list F) : (length (dropna l) <= length l)%nat.
Proof.
  unfold dropna. apply length_filter.
Qed.

Lemma agg_std_short (l : list F) : (length l < 2)%nat -> agg_std l = nan.
Proof.
  intros Hl. unfold agg_std.
  pose proof (dropna_length l) as Hd.
  destruct (length (dropna l) <? 2)%nat eqn:E; [reflexivity|].
  apply Nat.ltb_ge in E. lia.
Qed.

Lemma py_div_ok (a b : F) : feqb b (of_Z 0) = false -> py_div a b = Ok (fdiv a b).
Proof.
  intros E. unfold py_div. now rewrite E.
Qed.

Lemma r2_score_total (y yhat : list F) :
  exists q, Engine.r2_score y yhat = Ok q
            /\ (feqb (Engine.ss_tot y) (of_Z 0) = true -> q = nan).
Proof.
  unfold Engine.r2_score.
  destruct (feqb (Engine.ss_tot y) (of_Z 0)) eqn:E.
  - exists nan. split; [reflexivity|trivial].
  - rewrite (py_div_ok _ _ E). simpl.
    eexists. split; [reflexivity|]. discriminate.
Qed.

Lemma fit_through_origin_total (x y : list F) :
  exists beta q,
    Engine.fit_through_origin x y = Ok (beta, q)
    /\ (feqb (np_dot x x) (of_Z 0) = true -> beta = nan)
    /\ (feqb (Engine.ss_tot y) (of_Z 0) = true -> q = nan).
Proof.
  unfold Engine.fit_through_origin, fneb, np_div.
  destruct (feqb (np_dot x x) (of_Z 0)) eqn:E; simpl.
  - destruct (r2_score_total y (map (fmul nan) x)) as (q & Hq & Hnan).
    rewrite Hq. simpl. exists nan, q. auto.
  - destruct (r2_score_total y (map (fmul (fdiv (np_dot x y) (np_dot x x))) x))
      as (q & Hq & Hnan).
    rewrite Hq. simpl. eexists _, q. split; [reflexivity|].
    split; [discriminate|assumption].
Qed.

Lemma unit_rms_never_raises (x : list F) : exists out, Engine.unit_rms x = Ok out.
Proof.
  unfold Engine.unit_rms, np_div_array.
  destruct (feqb (Engine.rms_of (Engine.centered x)) (of_Z 0)); eauto.
Qed.

End GenericFacts.

(** ** Degenerate fits and aggregation *)

(** C6. A degenerate regression never raises: for arrays [x] and [y] of one
    length, [fit_through_origin] and [r2_score] return a value; the quality
    is NaN when the total sum of squares of [y] is zero and the slope is NaN
    when [x . x] is zero. Aggregation skips NaN entries, the standard
    deviation of fewer than two entries is NaN, and of two or more defined
    entries it divides by their number minus one. *)
Theorem degenerate_fit_is_nan_not_error {F : Type} `{Float64 F} (x y l1 l2 : list F) :
  length x = length y ->
  (exists beta q,
      Engine.fit_through_origin x y = Ok (beta, q)
      /\ (feqb (np_dot x x) (of_Z 0) = true -> beta = nan)
      /\ (feqb (Engine.ss_tot y) (of_Z 0) = true -> q = nan))
  /\ (forall yhat, length yhat = length y ->
        exists q, Engine.r2_score y yhat = Ok q
                  /\ (feqb (Engine.ss_tot y) (of_Z 0) = true -> q = nan))
  /\ agg_mean (l1 ++ nan :: l2) = agg_mean (l1 ++ l2)
  /\ agg_std (l1 ++ nan :: l2) = agg_std (l1 ++ l2)
  /\ ((length l1 < 2)%nat -> agg_std l1 = nan)
  /\ ((2 <= length (dropna l1))%nat ->
        agg_std l1 =
        fsqrt (fdiv (np_sum (map (fun a => fsq (fsub a (fdiv (np_sum (dropna l1))
                                                           (of_nat (length (dropna l1))))))
                                 (dropna l1)))
                    (of_nat (length (dropna l1) - 1)))).
Proof.
  intros _. repeat split.
  - apply fit_through_origin_total.
  - intros yhat _. apply r2_score_total.
  - unfold agg_mean. now rewrite dropna_skips_nan.
  - unfold agg_std. now rewrite dropna_skips_nan.
  - apply agg_std_short.
  - intros Hlen. unfold agg_std.
    destruct (length (dropna l1) <? 2)%nat eqn:E; [|reflexivity].
    apply Nat.ltb_lt in E. lia.
Qed.

(** A zero design vector against a constant target, on binary64. *)
Lemma degenerate_fit_witness :
  length [0%float; 0%float] = length [1%float; 1%float]
  /\ Engine.fit_through_origin [0%float; 0%float] [1%float; 1%float]
     = Ok (PrimFloat.nan, PrimFloat.nan)
  /\ agg_std [1%float] = PrimFloat.nan.
Proof.
  destruct (degenerate_fit_is_nan_not_error
              [0%float; 0%float] [1%float; 1%float] [1%float] [] eq_refl)
    as ((beta & q & Hfit & Hbeta & Hq) & _ & _ & _ & Hstd & _).
  split; [reflexivity|]. split.
  - rewrite Hfit, (Hbeta eq_refl), (Hq eq_refl). reflexivity.
  - apply Hstd. simpl. lia.
Defined.

(** ** The verdict engine *)

Lemma rbind_ok {A B : Type} (c : result A) (k : A -> result B) (v : B) :
  rbind c k = Ok v -> exists a, c = Ok a /\ k a = Ok v.
Proof.
  destruct c as [a| |]; simpl; intros E; try discriminate. eauto.
Qed.

(** Splits a hypothesis [(x <- c ;; k) = Ok v] into the steps it ran. *)
Ltac bind_inv H :=
  let a := fresh "a" in
  let Ha := fresh "Ha" in
  apply rbind_ok in H; destruct H as (a & Ha & H).

Section RunnerFacts.
Context {F : Type} `{Float64 F} (float_of_str : string -> option F).

(** The three rows [compute_verdict] asks for. *)
Definition required_conditions : list string :=
  ["coherent_bin_clean"; "random_bin"; "palindrome_bin_no_coherence"].

Definition rows_named (df : DataFrame F) (cond : string) : list (gmap string (json F)) :=
  filter (fun r => Runner.cell_is cond (r !! "condition") = true) (records df).

Lemma row_ok (df : DataFrame F) (cond : string) (r : gmap string (json F)) :
  Runner.row df cond = Ok r -> rows_named df cond = [r].
Proof.
  unfold Runner.row, rows_named.
  destruct (decide ("condition" ∈ columns df)); [|discriminate].
  destruct (filter _ (records df)) as [|r1 [|r2 rest]]; try discriminate.
  now intros [= ->].
Qed.

Lemma row_not_one (df : DataFrame F) (cond : string) :
  length (rows_named df cond) <> 1%nat -> exists e, Runner.row df cond = Raise e.
Proof.
  unfold Runner.row, rows_named. intros Hlen.
  destruct (decide ("condition" ∈ columns df)); [|eauto].
  destruct (filter _ (records df)) as [|r1 [|r2 rest]]; eauto.
  now contradict Hlen.
Qed.

Lemma row_never_out_of_fuel (df : DataFrame F) (cond : string) :
  Runner.row df cond <> OutOfFuel.
Proof.
  unfold Runner.row.
  destruct (decide ("condition" ∈ columns df)); [|discriminate].
  destruct (filter _ (records df)) as [|r1 [|r2 rest]]; discriminate.
Qed.

Lemma compute_verdict_raise (files : gmap string (file F)) (e : exn) :
  Runner.verdict_details float_of_str files = Raise e ->
  Runner.compute_verdict float_of_str files = (Raise e, files).
Proof.
  unfold Runner.compute_verdict. now intros ->.
Qed.

Lemma verdict_details_needs_rows (files : gmap string (file F)) (df : DataFrame F)
  (ref : json F) :
  files !! Runner.fit_summary_csv = Some (Csv df) ->
  files !! Runner.reference_json = Some (Json ref) ->
  (exists cond, cond ∈ required_conditions /\ length (rows_named df cond) <> 1%nat)
  \/ json_getitem ref "coherent_bin_clean" = Raise KeyError ->
  exists e, Runner.verdict_details float_of_str files = Raise e.
Proof.
  intros Hdf Href Hbad.
  unfold Runner.verdict_details, Runner.load_fit_summary, Runner.load_reference.
  rewrite Hdf, Href. simpl.
  assert (Hrow : forall cond, cond ∈ required_conditions ->
                   length (rows_named df cond) <> 1%nat ->
                   forall r, Runner.row df cond <> Ok r).
  { intros cond _ Hlen r Hr. apply row_ok in Hr. rewrite Hr in Hlen. now apply Hlen. }
  destruct (Runner.row df "coherent_bin_clean") as [clean|e|] eqn:Eclean;
    [|eauto|now apply row_never_out_of_fuel in Eclean].
  destruct (Runner.row df "random_bin") as [rand|e|] eqn:Erand;
    [|eauto|now apply row_never_out_of_fuel in Erand].
  destruct (Runner.row df "palindrome_bin_no_coherence") as [pal|e|] eqn:Epal;
    [|eauto|now apply row_never_out_of_fuel in Epal].
  simpl.
  destruct Hbad as [(cond & Hin & Hlen)|Hkey].
  - exfalso. unfold required_conditions in Hin.
    repeat (apply elem_of_cons in Hin as [->|Hin]);
      [eapply Hrow; [|exact Hlen|eassumption]; set_solver ..|].
    now apply elem_of_nil in Hin.
  - rewrite Hkey. simpl. eauto.
Qed.

End RunnerFacts.

(** C5. When the fit summary lacks one of the three required rows or holds
    it more than once, or the reference has no entry "coherent_bin_clean",
    [compute_verdict] ends in an exception and leaves every file as it was:
    neither verdict.txt nor verdict_details.json is written. *)
Theorem no_partial_verdict {F : Type} `{Float64 F} (float_of_str : string -> option F)
  (files : gmap string (file F))
  (df : DataFrame F) (ref : json F) :
  files !! Runner.fit_summary_csv = Some (Csv df) ->
  files !! Runner.reference_json = Some (Json ref) ->
  (exists cond, cond ∈ required_conditions /\ length (rows_named df cond) <> 1%nat)
  \/ json_getitem ref "coherent_bin_clean" = Raise KeyError ->
  exists e, Runner.compute_verdict float_of_str files = (Raise e, files).
Proof.
  intros Hdf Href Hbad.
  destruct (verdict_details_needs_rows float_of_str files Hdf Href Hbad) as (e & He).
  exists e. now apply compute_verdict_raise.
Qed.

(** A summary with no row "coherent_bin_clean". *)
Lemma no_partial_verdict_witness :
  Runner.compute_verdict sample_float_of_str (sample_files summary_without_clean)
  = (Raise ValueError, sample_files summary_without_clean).
Proof.
  destruct (@no_partial_verdict float binary64 sample_float_of_str (sample_files summary_without_clean)
              summary_without_clean sample_reference eq_refl eq_refl) as (e & He).
  - left. exists "coherent_bin_clean". split.
    + unfold required_conditions. set_solver.
    + vm_compute. discriminate.
  - rewrite He. f_equal. f_equal.
    assert (Hv : Runner.verdict_details sample_float_of_str (sample_files summary_without_clean)
                 = Raise ValueError) by (vm_compute; reflexivity).
    unfold Runner.compute_verdict in He. rewrite Hv in He. congruence.
Defined.

(** ** The eight checks of the verdict *)

Section VerdictFacts.
Context {F : Type} `{Float64 F} (float_of_str : string -> option F).

(** The entry "checks" of the details, for a list of checks. *)
Definition recorded (checks : list (string * bool)) : json F :=
  JList (map (fun c => JDict [("name", JStr (fst c)); ("ok", JBool (snd c))]) checks).

(** The number [float(row[field])] of a row of the table, and the number
    [float(ref[field])] of the reference. *)
Definition cell_number (r : gmap string (json F)) (field : string) (v : F) : Prop :=
  exists c, r !! field = Some c /\ float_of_json float_of_str c = Ok v.

Definition reference_number (ref_clean : json F) (field : string) (v : F) : Prop :=
  exists c, json_getitem ref_clean field = Ok c /\ float_of_json float_of_str c = Ok v.

Lemma getitem_ok {A : Type} (d : gmap string A) (key : string) (v : A) :
  getitem d key = Ok v -> d !! key = Some v.
Proof.
  unfold getitem. destruct (d !! key); [now intros [= ->]|discriminate].
Qed.

Lemma dict_getitem_ok {A : Type} (d : list (string * A)) (key : string) (v : A) :
  Runner.dict_getitem d key = Ok v -> assoc d key = Some v.
Proof.
  unfold Runner.dict_getitem. destruct (assoc d key); [now intros [= ->]|discriminate].
Qed.

Lemma within_abs_ok (val ref : json F) (tol : F) (b : bool) :
  Runner.within float_of_str val ref (Some tol) None = Ok b ->
  exists v r, float_of_json float_of_str val = Ok v
              /\ float_of_json float_of_str ref = Ok r
              /\ b = fleb (fabs (fsub v r)) tol.
Proof.
  unfold Runner.within. intros E. bind_inv E. bind_inv E. injection E as <-. eauto.
Qed.

Lemma within_rel_ok (val ref : json F) (tol : F) (b : bool) :
  Runner.within float_of_str val ref None (Some tol) = Ok b ->
  exists v r, float_of_json float_of_str val = Ok v
              /\ float_of_json float_of_str ref = Ok r
              /\ b = if feqb r (of_Z 0) then fleb (fabs v) tol
                     else fleb (fdiv (fabs (fsub v r)) (fabs r)) tol.
Proof.
  unfold Runner.within. intros E. bind_inv E. rename a into r.
  destruct (feqb r (of_Z 0)) eqn:Hz.
  - bind_inv E. injection E as <-. exists a, r. now rewrite Hz.
  - bind_inv E. bind_inv E. injection E as <-.
    unfold py_div in Ha1. destruct (feqb (fabs r) (of_Z 0)); [discriminate|].
    injection Ha1 as <-. exists a, r. now rewrite Hz.
Qed.

Lemma abs_check_ok (name field tol_key : string) (clean : gmap string (json F))
  (ref_clean : json F) (tol : F) (c : string * bool) :
  assoc Runner.TOL tol_key = Some tol ->
  Runner.abs_check float_of_str name field tol_key clean ref_clean = Ok c ->
  exists v r, cell_number clean field v /\ reference_number ref_clean field r
              /\ c = (name, fleb (fabs (fsub v r)) tol).
Proof.
  intros Htol. unfold Runner.abs_check. intros E.
  bind_inv E. bind_inv E. bind_inv E. bind_inv E. injection E as <-.
  apply getitem_ok in Ha. apply dict_getitem_ok in Ha1.
  rewrite Htol in Ha1. injection Ha1 as <-.
  apply within_abs_ok in Ha2 as (v & r & Hv & Hr & ->).
  exists v, r. repeat split; [now exists a|now exists a0].
Qed.

Lemma rel_check_ok (name field tol_key : string) (clean : gmap string (json F))
  (ref_clean : json F) (tol : F) (c : string * bool) :
  assoc Runner.TOL tol_key = Some tol ->
  Runner.rel_check float_of_str name field tol_key clean ref_clean = Ok c ->
  exists v r, cell_number clean field v /\ reference_number ref_clean field r
              /\ c = (name, if feqb r (of_Z 0) then fleb (fabs v) tol
                            else fleb (fdiv (fabs (fsub v r)) (fabs r)) tol).
Proof.
  intros Htol. unfold Runner.rel_check. intros E.
  bind_inv E. bind_inv E. bind_inv E. bind_inv E. injection E as <-.
  apply getitem_ok in Ha. apply dict_getitem_ok in Ha1.
  rewrite Htol in Ha1. injection Ha1 as <-.
  apply within_rel_ok in Ha2 as (v & r & Hv & Hr & ->).
  exists v, r. repeat split; [now exists a|now exists a0].
Qed.

Lemma ceiling_check_ok (name field max_key : string) (control : gmap string (json F))
  (top : F) (c : string * bool) :
  assoc Runner.NEG_CONTROL max_key = Some top ->
  Runner.ceiling_check float_of_str name field max_key control = Ok c ->
  exists v, cell_number control field v /\ c = (name, fleb v top).
Proof.
  intros Htop. unfold Runner.ceiling_check. intros E.
  bind_inv E. bind_inv E. bind_inv E. injection E as <-.
  apply getitem_ok in Ha. apply dict_getitem_ok in Ha1.
  rewrite Htop in Ha1. injection Ha1 as <-.
  exists a0. split; [now exists a|reflexivity].
Qed.

Lemma verdict_token_pass (checks : list (string * bool)) :
  Runner.verdict_token checks = "PASS" <-> Forall (fun c => snd c = true) checks.
Proof.
  unfold Runner.verdict_token, Runner.passed.
  destruct (forallb snd checks) eqn:E.
  - split; [|reflexivity]. intros _.
    apply Forall_forall. intros c Hc. apply list_elem_of_In in Hc.
    rewrite forallb_forall in E. now apply E.
  - split; [discriminate|]. intros Hall. exfalso.
    assert (forallb snd checks = true); [|congruence].
    apply forallb_forall. intros c Hc. apply list_elem_of_In in Hc.
    rewrite Forall_forall in Hall. now apply Hall.
Qed.

(** The eight checks as the comparisons they are, on the numbers of the
    clean row ([m1] to [m4]), of the reference ([r1] to [r4]) and of the two
    controls. *)
Definition eight_checks (m1 m2 m3 m4 r1 r2 r3 r4 a1 a2 b1 b2 : F) : list (string * bool) := [
  ("clean.R2_mean", fleb (fabs (fsub m1 r1)) (of_Q 5 100));
  ("clean.R2_std", fleb (fabs (fsub m2 r2)) (of_Q 3 100));
  ("clean.beta_origin_mean",
   if feqb r3 (of_Z 0) then fleb (fabs m3) (of_Q 12 100)
   else fleb (fdiv (fabs (fsub m3 r3)) (fabs r3)) (of_Q 12 100));
  ("clean.R2_origin_mean", fleb (fabs (fsub m4 r4)) (of_Q 20 100));
  ("random.R2_mean_fail", fleb a1 (of_Q 20 100));
  ("random.R2_origin_mean_fail", fleb a2 (of_Q 20 100));
  ("palindrome.R2_mean_fail", fleb b1 (of_Q 20 100));
  ("palindrome.R2_origin_mean_fail", fleb b2 (of_Q 20 100))
].

Lemma verdict_checks_ok (clean rand pal : gmap string (json F)) (ref_clean : json F)
  (checks : list (string * bool)) :
  Runner.verdict_checks float_of_str clean rand pal ref_clean = Ok checks ->
  exists m1 m2 m3 m4 r1 r2 r3 r4 a1 a2 b1 b2,
    (cell_number clean "R2_mean" m1 /\ reference_number ref_clean "R2_mean" r1
     /\ cell_number clean "R2_std" m2 /\ reference_number ref_clean "R2_std" r2
     /\ cell_number clean "beta_origin_mean" m3
     /\ reference_number ref_clean "beta_origin_mean" r3
     /\ cell_number clean "R2_origin_mean" m4
     /\ reference_number ref_clean "R2_origin_mean" r4)
    /\ (cell_number rand "R2_mean" a1 /\ cell_number rand "R2_origin_mean" a2
        /\ cell_number pal "R2_mean" b1 /\ cell_number pal "R2_origin_mean" b2)
    /\ checks = eight_checks m1 m2 m3 m4 r1 r2 r3 r4 a1 a2 b1 b2.
Proof.
  unfold Runner.verdict_checks. intros E.
  do 8 bind_inv E. injection E as <-.
  apply (@abs_check_ok _ _ "R2_mean_abs" _ _ (of_Q 5 100) _ eq_refl) in Ha as (m1 & r1 & ? & ? & ->).
  apply (@abs_check_ok _ _ "R2_std_abs" _ _ (of_Q 3 100) _ eq_refl) in Ha0 as (m2 & r2 & ? & ? & ->).
  apply (@rel_check_ok _ _ "beta_origin_mean_rel" _ _ (of_Q 12 100) _ eq_refl) in Ha1 as (m3 & r3 & ? & ? & ->).
  apply (@abs_check_ok _ _ "R2_origin_mean_abs" _ _ (of_Q 20 100) _ eq_refl) in Ha2 as (m4 & r4 & ? & ? & ->).
  apply (@ceiling_check_ok _ _ "R2_mean_max" _ (of_Q 20 100) _ eq_refl) in Ha3 as (a1 & ? & ->).
  apply (@ceiling_check_ok _ _ "R2_origin_mean_max" _ (of_Q 20 100) _ eq_refl) in Ha4 as (a2 & ? & ->).
  apply (@ceiling_check_ok _ _ "R2_mean_max" _ (of_Q 20 100) _ eq_refl) in Ha5 as (b1 & ? & ->).
  apply (@ceiling_check_ok _ _ "R2_origin_mean_max" _ (of_Q 20 100) _ eq_refl) in Ha6 as (b2 & ? & ->).
  exists m1, m2, m3, m4, r1, r2, r3, r4, a1, a2, b1, b2.
  repeat split; assumption.
Qed.

End VerdictFacts.

(** C2. When [compute_verdict] returns, the three rows and the reference
    entry were found, and the list of checks that it computed is the eight
    named comparisons on their numbers: the four reference checks of the
    clean row (absolute differences within 0.05, 0.03 and 0.20, and the
    slope within the relative tolerance 0.12, which is [|measured| <= 0.12]
    when the reference slope is exactly zero) and the four ceilings 0.20 of
    the two controls. The details record each check by name and outcome
    under "checks", the rows and the reference used under "measured" and
    "reference", and the tolerances under "tolerances"; the entry "verdict"
    is PASS exactly when all eight comparisons hold and FAIL otherwise, and
    that token and the details are the two files written. *)
Theorem verdict_is_conjunction_of_checks {F : Type} `{Float64 F}
  (float_of_str : string -> option F)
  (files files' : gmap string (file F)) (details : json F) :
  Runner.compute_verdict float_of_str files = (Ok details, files') ->
  exists (df : DataFrame F) (ref : json F) (clean rand pal : gmap string (json F))
         (ref_clean : json F) (m1 m2 m3 m4 r1 r2 r3 r4 a1 a2 b1 b2 : F),
    (Runner.load_fit_summary files = Ok df
     /\ Runner.load_reference files = Ok ref
     /\ Runner.row df "coherent_bin_clean" = Ok clean
     /\ Runner.row df "random_bin" = Ok rand
     /\ Runner.row df "palindrome_bin_no_coherence" = Ok pal
     /\ json_getitem ref "coherent_bin_clean" = Ok ref_clean)
    /\ (cell_number float_of_str clean "R2_mean" m1
        /\ reference_number float_of_str ref_clean "R2_mean" r1
        /\ cell_number float_of_str clean "R2_std" m2
        /\ reference_number float_of_str ref_clean "R2_std" r2
        /\ cell_number float_of_str clean "beta_origin_mean" m3
        /\ reference_number float_of_str ref_clean "beta_origin_mean" r3
        /\ cell_number float_of_str clean "R2_origin_mean" m4
        /\ reference_number float_of_str ref_clean "R2_origin_mean" r4)
    /\ (cell_number float_of_str rand "R2_mean" a1
        /\ cell_number float_of_str rand "R2_origin_mean" a2
        /\ cell_number float_of_str pal "R2_mean" b1
        /\ cell_number float_of_str pal "R2_origin_mean" b2)
    /\ Runner.verdict_checks float_of_str clean rand pal ref_clean
       = Ok (eight_checks m1 m2 m3 m4 r1 r2 r3 r4 a1 a2 b1 b2)
    /\ json_getitem details "checks"
       = Ok (recorded (eight_checks m1 m2 m3 m4 r1 r2 r3 r4 a1 a2 b1 b2))
    /\ json_getitem details "measured"
       = Ok (JDict [("coherent_bin_clean", Runner.json_of_row clean);
                    ("random_bin", Runner.json_of_row rand);
                    ("palindrome_bin_no_coherence", Runner.json_of_row pal)])
    /\ json_getitem details "reference" = Ok (JDict [("coherent_bin_clean", ref_clean)])
    /\ json_getitem details "tolerances"
       = Ok (JDict [("TOL", Runner.json_of_dict JNum Runner.TOL);
                    ("NEG_CONTROL", Runner.json_of_dict JNum Runner.NEG_CONTROL)])
    /\ json_getitem details "verdict"
       = Ok (JStr (if forallb snd (eight_checks m1 m2 m3 m4 r1 r2 r3 r4 a1 a2 b1 b2)
                   then "PASS" else "FAIL"))
    /\ (json_getitem details "verdict" = Ok (JStr "PASS")
        <-> Forall (fun c => snd c = true)
                   (eight_checks m1 m2 m3 m4 r1 r2 r3 r4 a1 a2 b1 b2))
    /\ (feqb r3 (of_Z 0) = true ->
        assoc (eight_checks m1 m2 m3 m4 r1 r2 r3 r4 a1 a2 b1 b2) "clean.beta_origin_mean"
        = Some (fleb (fabs m3) (of_Q 12 100)))
    /\ files' !! Runner.verdict_details_json = Some (Json details)
    /\ files' !! Runner.verdict_txt
       = Some (Text ((if forallb snd (eight_checks m1 m2 m3 m4 r1 r2 r3 r4 a1 a2 b1 b2)
                      then "PASS" else "FAIL") ++ Runner.nl)).
Proof.
  intros Hcv. unfold Runner.compute_verdict in Hcv.
  destruct (Runner.verdict_details float_of_str files) as [d| |] eqn:Evd;
    try (now inversion Hcv).
  unfold Runner.verdict_details in Evd.
  bind_inv Evd. rename a into df, Ha into Hdf.
  bind_inv Evd. rename a into ref, Ha into Href.
  bind_inv Evd. rename a into clean, Ha into Hclean.
  bind_inv Evd. rename a into rand, Ha into Hrand.
  bind_inv Evd. rename a into pal, Ha into Hpal.
  bind_inv Evd. rename a into ref_clean, Ha into Hrc.
  bind_inv Evd. rename a into checks, Ha into Hchecks.
  injection Evd as <-.
  cbn [json_getitem Runner.details_of assoc String.eqb Ascii.eqb Bool.eqb] in Hcv.
  injection Hcv as <- <-.
  destruct (verdict_checks_ok _ _ _ _ _ Hchecks)
    as (m1 & m2 & m3 & m4 & r1 & r2 & r3 & r4 & a1 & a2 & b1 & b2 & Hm & Hc & Echecks).
  exists df, ref, clean, rand, pal, ref_clean, m1, m2, m3, m4, r1, r2, r3, r4, a1, a2, b1, b2.
  rewrite <- Echecks.
  split; [now repeat split|]. split; [exact Hm|]. split; [exact Hc|].
  split; [exact Hchecks|].
  split; [reflexivity|]. split; [reflexivity|]. split; [reflexivity|].
  split; [reflexivity|]. split; [reflexivity|].
  split.
  { cbn [json_getitem Runner.details_of assoc String.eqb Ascii.eqb Bool.eqb].
    fold (Runner.passed checks). fold (Runner.verdict_token checks).
    rewrite <- verdict_token_pass. split; [now intros [= ->]|now intros ->]. }
  split.
  { intros Hz. rewrite Echecks. cbn [eight_checks assoc String.eqb Ascii.eqb Bool.eqb].
    now rewrite Hz. }
  split; [now rewrite lookup_insert_eq|].
  rewrite lookup_insert_ne by discriminate. now rewrite lookup_insert_eq.
Qed.

(** The sample summary against the sample reference returns a verdict. *)
Lemma sample_details_ok :
  exists details : json float,
    Runner.verdict_details sample_float_of_str (sample_files sample_summary) = Ok details
    /\ json_getitem details "verdict" = Ok (JStr "PASS").
Proof.
  eexists. split; vm_compute; reflexivity.
Qed.

(** The sample summary against the sample reference: every check holds, the
    slope being compared with a reference of zero. *)
Lemma verdict_witness :
  exists (details : json float) (files' : gmap string (file float)),
    Runner.compute_verdict sample_float_of_str (sample_files sample_summary)
    = (Ok details, files')
    /\ json_getitem details "verdict" = Ok (JStr "PASS")
    /\ files' !! Runner.verdict_details_json = Some (Json details).
Proof.
  destruct sample_details_ok as (d & Hd & Hpass).
  assert (E : exists files',
             Runner.compute_verdict sample_float_of_str (sample_files sample_summary)
             = (Ok d, files')).
  { unfold Runner.compute_verdict. rewrite Hd, Hpass. eexists. reflexivity. }
  destruct E as (files' & E).
  destruct (@verdict_is_conjunction_of_checks _ _ _ _ _ _ E)
    as (df & ref & clean & rand & pal & ref_clean
        & m1 & m2 & m3 & m4 & r1 & r2 & r3 & r4 & a1 & a2 & b1 & b2
        & _ & _ & _ & _ & _ & _ & _ & _ & _ & _ & _ & Hfile & _).
  exists d, files'. auto.
Defined.

(** ** The reference-comparison checker *)

(** The claim as worded: the first line printed is one of three tokens. *)
Definition one_of_three_tokens (printed : list string) : Prop :=
  exists line rest,
    printed = line :: rest
    /\ (line = "OFFICIAL_REPLICATION_PASS"
        \/ line = "OFFICIAL_REPLICATION_FAIL"
        \/ String.prefix "NOT_COMPARABLE" line = true).

(** What the checker does print. *)
Definition one_of_four_tokens (printed : list string) (code : Z) : Prop :=
  exists line rest,
    printed = line :: rest
    /\ ((line = "OFFICIAL_REPLICATION_PASS" /\ rest = [] /\ code = 0%Z)
        \/ (line = "OFFICIAL_REPLICATION_FAIL" /\ rest = [] /\ code = 0%Z)
        \/ (String.prefix "NOT_COMPARABLE (" line = true /\ code = 1%Z)
        \/ (String.prefix "OFFICIAL_REPLICATION (status=" line = true
            /\ rest = [] /\ code = 0%Z)).

Lemma prefix_empty (s : string) : String.prefix "" s = true.
Proof.
  now destruct s.
Qed.

(** Picks the alternative of [one_of_four_tokens] that a printed line fits. *)
Ltac token_side := repeat split; first [reflexivity | simpl; apply prefix_empty].

Ltac pick_token :=
  eexists _, _; (split; [reflexivity|]);
  first [ left; token_side
        | right; left; token_side
        | right; right; left; token_side
        | right; right; right; token_side ].

Section CheckerFacts.
Context {F : Type} `{Float64 F}.
Context (str_of_value : json F -> string) (upper_unicode : string -> string).

(** The status as the comment of the source words it: the first of the
    fields status, verdict, overall and result whose value is truthy, a
    field that is absent counting as [None]; the last one when none is. *)
Definition field (kvs : list (string * json F)) (key : string) : json F :=
  match assoc kvs key with
  | Some v => v
  | None => JNull
  end.

Definition first_truthy (kvs : list (string * json F)) : json F :=
  if Checker.truthy (field kvs "status") then field kvs "status"
  else if Checker.truthy (field kvs "verdict") then field kvs "verdict"
  else if Checker.truthy (field kvs "overall") then field kvs "overall"
  else field kvs "result".

Definition is_object (v : json F) : bool :=
  match v with
  | JDict _ => true
  | _ => false
  end.

(** The required files that the directory lacks, and the required conditions
    that the text of the table lacks, in the order of the two lists. *)
Definition missing_files (dir : gmap string (Checker.entry F)) : list string :=
  filter (fun rel => dir !! rel = None) Checker.REQUIRED.

Definition missing_conditions (csv_text : string) : list string :=
  filter (fun cond => Checker.contains cond csv_text = false) Checker.EXPECTED_CONDITIONS.

Lemma get_object (kvs : list (string * json F)) (key : string) :
  Checker.get (JDict kvs) key = Ok (field kvs key).
Proof.
  unfold Checker.get, field. now destruct (assoc kvs key).
Qed.

Lemma extract_status_object (kvs : list (string * json F)) :
  Checker.extract_status (JDict kvs) = Ok (first_truthy kvs).
Proof.
  unfold Checker.extract_status, Checker.or_else, first_truthy.
  rewrite !get_object. cbn [rbind].
  destruct (Checker.truthy (field kvs "status")); [reflexivity|].
  destruct (Checker.truthy (field kvs "verdict")); [reflexivity|].
  now destruct (Checker.truthy (field kvs "overall")).
Qed.

Lemma extract_status_other (v : json F) :
  is_object v = false -> Checker.extract_status v = Raise AttributeError.
Proof.
  now destruct v.
Qed.

Lemma extract_status_cases (v : json F) :
  (exists s, Checker.extract_status v = Ok s)
  \/ Checker.extract_status v = Raise AttributeError.
Proof.
  destruct (is_object v) eqn:Hv.
  - destruct v; try discriminate. left. eexists. apply extract_status_object.
  - right. now apply extract_status_other.
Qed.

Lemma decide_status_tokens (status : json F) :
  one_of_four_tokens (fst (Checker.decide_status str_of_value upper_unicode status))
                     (snd (Checker.decide_status str_of_value upper_unicode status)).
Proof.
  unfold Checker.decide_status, one_of_four_tokens.
  destruct (Checker.contains "PASS" _); [|destruct (Checker.contains "FAIL" _)];
    simpl; pick_token.
Qed.

(** The status of the details that [compute_verdict] writes is their entry
    "verdict". *)
Lemma extract_status_of_details (checks : list (string * bool))
  (clean rand pal : gmap string (json F)) (ref_clean : json F) :
  Checker.extract_status (Runner.details_of checks clean rand pal ref_clean)
  = Ok (JStr (Runner.verdict_token checks)).
Proof.
  unfold Checker.extract_status, Runner.details_of, Runner.verdict_token. simpl.
  destruct (Runner.passed checks); reflexivity.
Qed.

Lemma decide_status_of_token (checks : list (string * bool)) :
  Checker.decide_status str_of_value upper_unicode (JStr (Runner.verdict_token checks))
  = ([if Runner.passed checks then "OFFICIAL_REPLICATION_PASS"
      else "OFFICIAL_REPLICATION_FAIL"], 0%Z).
Proof.
  unfold Runner.verdict_token.
  destruct (Runner.passed checks); reflexivity.
Qed.

(** [main] on a directory, by what the directory holds. *)
Lemma main_missing_files (arg : string) (dir : gmap string (Checker.entry F)) :
  missing_files dir <> [] ->
  Checker.main str_of_value upper_unicode [arg] (Some dir)
  = Ok ("NOT_COMPARABLE (missing required files):"
          :: map (fun m => " - " ++ m) (missing_files dir), 1%Z).
Proof.
  unfold Checker.main. fold (missing_files dir).
  now destruct (missing_files dir).
Qed.

Lemma main_unparsed (arg : string) (dir : gmap string (Checker.entry F)) (msg : string) :
  missing_files dir = [] ->
  (dir !! "verdict_details.json" = Some (Checker.EDir msg)
   \/ exists text, dir !! "verdict_details.json" = Some (Checker.EFile text (inr msg))) ->
  Checker.main str_of_value upper_unicode [arg] (Some dir)
  = Ok (["NOT_COMPARABLE (cannot parse verdict_details.json): " ++ msg], 1%Z).
Proof.
  intros Hfiles Hdetails. unfold Checker.main. fold (missing_files dir). rewrite Hfiles.
  now destruct Hdetails as [-> | (text & ->)].
Qed.

Lemma main_parsed (arg : string) (dir : gmap string (Checker.entry F)) (text : string)
  (v : json F) :
  missing_files dir = [] ->
  dir !! "verdict_details.json" = Some (Checker.EFile text (inl v)) ->
  Checker.main str_of_value upper_unicode [arg] (Some dir)
  = (status <- Checker.extract_status v ;;
     if negb (Checker.truthy status) then
       Ok (["NOT_COMPARABLE (no status/verdict field in verdict_details.json)"], 1%Z)
     else
       csv_text <- match dir !! "tables/fit_summary_by_condition.csv" with
                   | Some e => Checker.read_text e
                   | None => Raise FileNotFoundError
                   end ;;
       match missing_conditions csv_text with
       | cond :: _ =>
           Ok (["NOT_COMPARABLE (missing condition in fit_summary_by_condition.csv): "
                  ++ cond], 1%Z)
       | [] => Ok (Checker.decide_status str_of_value upper_unicode status)
       end).
Proof.
  intros Hfiles Hdetails. unfold Checker.main. fold (missing_files dir).
  now rewrite Hfiles, Hdetails.
Qed.

Lemma main_trichotomy (arg : string) (base : option (gmap string (Checker.entry F))) :
  match Checker.main str_of_value upper_unicode [arg] base with
  | Ok (printed, code) => one_of_four_tokens printed code
  | Raise e => e = AttributeError \/ e = IsADirectoryError
  | OutOfFuel => False
  end.
Proof.
  destruct base as [dir|]; [|unfold Checker.main; pick_token].
  destruct (missing_files dir) as [|m ms] eqn:Emissing.
  2:{ rewrite (@main_missing_files arg dir) by (rewrite Emissing; discriminate).
      rewrite Emissing. pick_token. }
  assert (Hcsv : dir !! "tables/fit_summary_by_condition.csv" <> None).
  { intros Hnone.
    apply (filter_nil_not_elem_of _ _ "tables/fit_summary_by_condition.csv") in Emissing;
      [|exact Hnone].
    apply Emissing. unfold Checker.REQUIRED. set_solver. }
  destruct (dir !! "verdict_details.json") as [[text [v|msg]|msg]|] eqn:Edetails.
  - rewrite (@main_parsed arg dir text v Emissing Edetails).
    destruct (extract_status_cases v) as [(status & ->)| ->]; cbn [rbind]; [|auto].
    destruct (Checker.truthy status); cbn [negb]; [|pick_token].
    destruct (dir !! "tables/fit_summary_by_condition.csv") as [[csv_text loads|msg]|];
      cbn [Checker.read_text rbind]; [| auto | congruence].
    destruct (missing_conditions csv_text) as [|cond conds]; [|pick_token].
    pose proof (decide_status_tokens status) as Htok.
    now destruct (Checker.decide_status str_of_value upper_unicode status).
  - rewrite (@main_unparsed arg dir msg Emissing) by eauto. pick_token.
  - rewrite (@main_unparsed arg dir msg Emissing) by eauto. pick_token.
  - exfalso.
    apply (filter_nil_not_elem_of _ _ "verdict_details.json") in Emissing;
      [|exact Edetails].
    apply Emissing. unfold Checker.REQUIRED. set_solver.
Qed.

End CheckerFacts.



(** ** Arrays of small integers

    Statements about binary64 that are settled by evaluation range over the
    arrays of at most [n] integers between two bounds, all of which the
    lists below enumerate. *)

(** The integers [lo, lo + 1, ..., hi]. *)
Definition integers (lo hi : Z) : list Z :=
  map (fun i => (lo + Z.of_nat i)%Z) (seq 0 (Z.to_nat (hi - lo + 1))).

(** The arrays of [k] entries from [vals], and those of at most [n]. *)
Fixpoint arrays (vals : list Z) (k : nat) : list (list Z) :=
  match k with
  | O => [[]]
  | S k => flat_map (fun l => map (fun v => v :: l) vals) (arrays vals k)
  end.

Definition arrays_up_to (vals : list Z) (n : nat) : list (list Z) :=
  flat_map (arrays vals) (seq 0 (S n)).

(** An array all of whose entries are the same. *)
Definition constant (l : list Z) : bool :=
  match l with
  | [] => true
  | z :: l' => forallb (Z.eqb z) l'
  end.

Lemma integers_complete (lo hi z : Z) : (lo <= z <= hi)%Z -> In z (integers lo hi).
Proof.
  intros Hz. unfold integers. apply in_map_iff.
  exists (Z.to_nat (z - lo)). split; [lia|].
  apply in_seq. lia.
Qed.

Lemma arrays_complete (vals : list Z) (l : list Z) :
  Forall (fun z => In z vals) l -> In l (arrays vals (length l)).
Proof.
  induction 1 as [|z l Hz _ IH]; simpl; [now left|].
  apply in_flat_map. exists l. split; [exact IH|].
  apply in_map_iff. now exists z.
Qed.

Lemma arrays_up_to_complete (lo hi : Z) (n : nat) (l : list Z) :
  (length l <= n)%nat ->
  Forall (fun z => (lo <= z <= hi)%Z) l ->
  In l (arrays_up_to (integers lo hi) n).
Proof.
  intros Hn Hl. unfold arrays_up_to. apply in_flat_map.
  exists (length l). split; [apply in_seq; lia|].
  apply arrays_complete. eapply Forall_impl; [exact Hl|].
  intros z. apply integers_complete.
Qed.

(** A check that holds on the enumeration holds on each of its arrays. *)
Lemma checked_on_arrays (check : list Z -> bool) (lo hi : Z) (n : nat) :
  forallb check (arrays_up_to (integers lo hi) n) = true ->
  forall l, (length l <= n)%nat -> Forall (fun z => (lo <= z <= hi)%Z) l -> check l = true.
Proof.
  intros Hall l Hn Hl. rewrite forallb_forall in Hall.
  apply Hall. now apply arrays_up_to_complete.
Qed.

(** ** Normalisation *)

(** The tolerance [2^-50] of the root mean square of a normalised array. *)
Definition rms_tolerance : float := PrimFloat.div 1 (float_of_Z (2 ^ 50)).

(** What [unit_rms] is to give on an array of integers: zeros when the array
    is constant, a root mean square within [rms_tolerance] of 1 otherwise. *)
Definition unit_rms_check (l : list Z) : bool :=
  match Engine.unit_rms (map float_of_Z l) with
  | Ok out =>
      if constant l then forallb (fun v => PrimFloat.eqb v 0) out
      else PrimFloat.leb (PrimFloat.abs (PrimFloat.sub (Engine.rms_of out) 1)) rms_tolerance
  | _ => false
  end.

Lemma unit_rms_checked :
  forallb unit_rms_check (arrays_up_to (integers (-4) 4) 6) = true.
Proof.
  vm_compute. reflexivity.
Qed.



(** C8 as worded, on binary64: the output has root mean square 1 within
    [2^-20], unless the root mean square of the input is zero, in which case
    the output is the input. *)
Definition normalizes_as_worded (x : list float) : Prop :=
  exists out : list float,
    Engine.unit_rms x = Ok out
    /\ (if PrimFloat.eqb (Engine.rms_of x) 0 then out = x
        else PrimFloat.leb (PrimFloat.abs (PrimFloat.sub (Engine.rms_of out) 1))
                           (PrimFloat.div 1 1048576) = true).


(** Outside the arrays of small integers the root mean square of the result
    need not be near 1, and a constant array need not give zeros. Squares
    that overflow make the root mean square infinite and the result zero;
    squares that underflow make it zero and the array is returned as it is;
    and the mean of [0.1, 0.1, 0.1] is rounded away from 0.1, so that the
    array is returned as [-1, -1, -1]. *)
Lemma unit_rms_rounding :
  Engine.unit_rms [0x1p600%float; (-0x1p600)%float] = Ok [0%float; (-0)%float]
  /\ Engine.rms_of [0%float; (-0)%float] = 0%float
  /\ Engine.unit_rms [0x1p-600%float; (-0x1p-600)%float]
     = Ok [0x1p-600%float; (-0x1p-600)%float]
  /\ Engine.unit_rms [0x1.999999999999ap-4%float; 0x1.999999999999ap-4%float;
                      0x1.999999999999ap-4%float]
     = Ok [(-1)%float; (-1)%float; (-1)%float].
Proof.
  repeat split; vm_compute; reflexivity.
Qed.

(** ** The fit through the origin *)

(** The data [beta * x] over a grid of integers, on binary64. *)
Definition exact_quadratic (b : Z) (g : list Z) : list float :=
  map (PrimFloat.mul (float_of_Z b)) (map float_of_Z g).

(** What the fit is to give on such data over a grid that is not constant:
    the slope [beta], and the quality 1, or NaN when [beta] is zero. *)
Definition origin_fit_check (b : Z) (g : list Z) : bool :=
  match Engine.fit_through_origin (map float_of_Z g) (exact_quadratic b g) with
  | Ok (slope, r2) =>
      constant g
      || (PrimFloat.eqb slope (float_of_Z b)
          && if (b =? 0)%Z then isnan r2 else PrimFloat.eqb r2 1)
  | _ => false
  end.

Lemma origin_fit_checked :
  forallb (fun b => forallb (origin_fit_check b) (arrays_up_to (integers (-4) 4) 5))
          (integers (-4) 4)
  = true.
Proof.
  vm_compute. reflexivity.
Qed.




(** Outside the grids of small integers the slope is [beta] up to rounding
    only, and a [beta] that is not zero can give NaN: over the grid
    [0.1, 0.2, 0.3] the data of [beta = 3] give the slope
    2.9999999999999996, and over [0, 1, 2] the data of [beta = 2^-600],
    whose squares underflow, give the quality NaN. *)
Lemma origin_fit_rounding :
  Engine.fit_through_origin
    [0x1.999999999999ap-4%float; 0x1.999999999999ap-3%float; 0x1.3333333333333p-2%float]
    (map (PrimFloat.mul 3)
       [0x1.999999999999ap-4%float; 0x1.999999999999ap-3%float; 0x1.3333333333333p-2%float])
  = Ok (0x1.7ffffffffffffp+1%float, 1%float)
  /\ PrimFloat.eqb 0x1.7ffffffffffffp+1 3 = false
  /\ Engine.fit_through_origin [0%float; 1%float; 2%float]
       (map (PrimFloat.mul 0x1p-600) [0%float; 1%float; 2%float])
     = Ok (0x1p-600%float, PrimFloat.nan).
Proof.
  repeat split; vm_compute; reflexivity.
Qed.

(** ** The rejection loop *)

Section LoopFacts.
Context {F : Type} `{Float64 F} {G : Type} (ext : External F G).

(** No candidate passes the gates of [p]. *)
Definition never_accepts (p : Engine.Params F) : Prop :=
  forall (lam mu : F) (sc : nat), Engine.accepted p lam mu sc = false.

Lemma empty_window_never_accepts (p : Engine.Params F) :
  (Engine.sign_changes_max p < Engine.sign_changes_min p)%Z -> never_accepts p.
Proof.
  intros Hwin lam mu sc. unfold Engine.accepted.
  destruct (Engine.sign_changes_min p <=? Z.of_nat sc)%Z eqn:Emin;
    [|now rewrite !andb_false_r].
  destruct (Z.of_nat sc <=? Engine.sign_changes_max p)%Z eqn:Emax;
    [|now rewrite !andb_false_r].
  apply Z.leb_le in Emin, Emax. lia.
Qed.

Lemma accept_loop_rejects (p : Engine.Params F) (m : nat) (idx : list nat)
  (fuel : nat) (g g' : G) (x : list F) (lam : F) :
  Engine.attempt ext p m idx g = Ok (x, lam, g') ->
  Engine.accepted p lam (np_mean x) (Engine.sign_changes_half x) = false ->
  Engine.accept_loop ext (S fuel) p m idx g = Engine.accept_loop ext fuel p m idx g'.
Proof.
  intros Hattempt Hrej. simpl. rewrite Hattempt. simpl. now rewrite Hrej.
Qed.

Lemma accept_loop_accepts (p : Engine.Params F) (m : nat) (idx : list nat)
  (fuel : nat) (g g' : G) (x : list F) (lam : F) :
  Engine.attempt ext p m idx g = Ok (x, lam, g') ->
  Engine.accepted p lam (np_mean x) (Engine.sign_changes_half x) = true ->
  Engine.accept_loop ext (S fuel) p m idx g
  = Ok (x, {| Engine.coh_lambda := lam;
              Engine.coh_mean := np_mean x;
              Engine.coh_sign_changes_half := Engine.sign_changes_half x |}, g').
Proof.
  intros Hattempt Hacc. simpl. rewrite Hattempt. simpl. now rewrite Hacc.
Qed.

Lemma accept_loop_runs_on (p : Engine.Params F) (m : nat) (idx : list nat) :
  never_accepts p ->
  (forall g, exists x lam g', Engine.attempt ext p m idx g = Ok (x, lam, g')) ->
  forall (fuel : nat) (g : G), Engine.accept_loop ext fuel p m idx g = OutOfFuel.
Proof.
  intros Hnever Hbody fuel. induction fuel as [|fuel IH]; intros g; [reflexivity|].
  destruct (Hbody g) as (x & lam & g' & Hattempt).
  rewrite (accept_loop_rejects _ _ _ fuel _ Hattempt (Hnever _ _ _)).
  apply IH.
Qed.

End LoopFacts.

(** X1. The loop of [generate_coherent_soft] has no bound of its own: a
    candidate that fails a gate is dropped and the loop goes on with the
    generator as the draws left it; and when the parameters let no candidate
    pass (as when the window of sign changes is empty) while every pass of
    the body yields a candidate, the loop is still running after any number
    of passes, so that [generate_coherent_soft] returns for no amount of
    fuel. *)
Theorem rejection_loop_has_no_bound {F : Type} `{Float64 F} {G : Type}
  (ext : External F G) (p : Engine.Params F) (idx : list nat) :
  (forall (fuel : nat) (g g' : G) (x : list F) (lam : F),
      Engine.attempt ext p (Engine.n p / 2) idx g = Ok (x, lam, g') ->
      Engine.accepted p lam (np_mean x) (Engine.sign_changes_half x) = false ->
      Engine.accept_loop ext (S fuel) p (Engine.n p / 2) idx g
      = Engine.accept_loop ext fuel p (Engine.n p / 2) idx g')
  /\ ((Engine.sign_changes_max p < Engine.sign_changes_min p)%Z -> never_accepts p)
  /\ (never_accepts p ->
      Engine.active_bins (Engine.n p / 2) (Engine.band p) = Ok idx ->
      idx <> [] ->
      (forall g, exists x lam g',
            Engine.attempt ext p (Engine.n p / 2) idx g = Ok (x, lam, g')) ->
      forall (fuel : nat) (g : G),
        Engine.generate_coherent_soft ext fuel g p = OutOfFuel).
Proof.
  split; [intros fuel g g' x lam; apply accept_loop_rejects|].
  split; [apply empty_window_never_accepts|].
  intros Hnever Hidx Hne Hbody fuel g.
  unfold Engine.generate_coherent_soft. rewrite Hidx. simpl.
  destruct idx as [|k idx']; [contradiction|]. simpl.
  now apply accept_loop_runs_on.
Qed.

(** Four samples, one active bin, and a window of sign changes from 3 to 2:
    the generator returns for no amount of fuel, while with the window from
    1 to 200 it returns at the first candidate. *)
Lemma rejection_loop_witness :
  (forall (fuel : nat) (g : nat),
      Engine.generate_coherent_soft sample_external fuel g closed_Params = OutOfFuel)
  /\ exists x coh,
      Engine.generate_coherent_soft sample_external 1 0%nat small_Params = Ok (x, coh, 1%nat).
Proof.
  split; [|eexists _, _; vm_compute; reflexivity].
  destruct (rejection_loop_has_no_bound sample_external closed_Params [1%nat])
    as (_ & Hwin & Hloop).
  apply Hloop.
  - apply Hwin. simpl. lia.
  - vm_compute. reflexivity.
  - discriminate.
  - intros g. eexists _, _, _. vm_compute. reflexivity.
Defined.

(** ** Accepted sequences *)

Section AcceptedFacts.
Context {F : Type} `{Float64 F} {G : Type} (ext : External F G).

(** A sequence the loop returns passed the gates on some pass. *)
Lemma accept_loop_ok (p : Engine.Params F) (m : nat) (idx : list nat) (fuel : nat)
  (g g' : G) (x : list F) (coh : Engine.Coherence F) :
  Engine.accept_loop ext fuel p m idx g = Ok (x, coh, g') ->
  exists (g0 : G) (lam : F),
    Engine.attempt ext p m idx g0 = Ok (x, lam, g')
    /\ Engine.accepted p lam (np_mean x) (Engine.sign_changes_half x) = true
    /\ coh = {| Engine.coh_lambda := lam;
                Engine.coh_mean := np_mean x;
                Engine.coh_sign_changes_half := Engine.sign_changes_half x |}.
Proof.
  revert g. induction fuel as [|fuel IH]; intros g Hloop; [discriminate|].
  simpl in Hloop. bind_inv Hloop. destruct a as [[x0 lam] g1].
  destruct (Engine.accepted p lam (np_mean x0) (Engine.sign_changes_half x0)) eqn:Hacc.
  - injection Hloop as <- <- <-. exists g, lam. auto.
  - now apply IH in Hloop.
Qed.

Lemma generate_ok (fuel : nat) (g g' : G) (p : Engine.Params F) (x : list F)
  (coh : Engine.Coherence F) :
  Engine.generate_coherent_soft ext fuel g p = Ok (x, coh, g') ->
  exists (idx : list nat) (g0 : G) (lam : F),
    Engine.active_bins (Engine.n p / 2) (Engine.band p) = Ok idx
    /\ Engine.attempt ext p (Engine.n p / 2) idx g0 = Ok (x, lam, g')
    /\ Engine.accepted p lam (np_mean x) (Engine.sign_changes_half x) = true
    /\ coh = {| Engine.coh_lambda := lam;
                Engine.coh_mean := np_mean x;
                Engine.coh_sign_changes_half := Engine.sign_changes_half x |}.
Proof.
  unfold Engine.generate_coherent_soft. intros Hgen.
  bind_inv Hgen. rename a into idx.
  destruct (length idx =? 0)%nat; [discriminate|].
  apply accept_loop_ok in Hgen as (g0 & lam & Hattempt & Hacc & Hcoh).
  exists idx, g0, lam. auto.
Qed.

Lemma attempt_ok (p : Engine.Params F) (m : nat) (idx : list nat) (g g' : G)
  (x : list F) (lam : F) :
  Engine.attempt ext p m idx g = Ok (x, lam, g') ->
  exists h : list F,
    Engine.unit_rms (h ++ rev h) = Ok x
    /\ Engine.low_freq_ratio ext x (Engine.band p) = Ok lam.
Proof.
  unfold Engine.attempt, Engine.candidate. intros Hattempt.
  bind_inv Hattempt. destruct a as [spec g1].
  bind_inv Hattempt. bind_inv Hattempt.
  injection Hattempt as <- <- <-. eauto.
Qed.

(** [unit_rms] acts entry by entry. *)
Lemma unit_rms_pointwise (y x : list F) :
  Engine.unit_rms y = Ok x -> exists f : F -> F, x = map f y.
Proof.
  unfold Engine.unit_rms, Engine.centered, np_div_array.
  destruct (feqb _ (of_Z 0)); intros [= <-].
  - eauto.
  - rewrite map_map. eauto.
Qed.

(** The second half of the sequence is the first half reversed. *)
Definition palindromic (x : list F) : Prop :=
  drop (length x / 2) x = rev (take (length x / 2) x).

Lemma mirrored_palindromic (h : list F) : palindromic (h ++ rev h).
Proof.
  unfold palindromic. rewrite length_app, length_rev.
  replace ((length h + length h) / 2)%nat with (length h)
    by (apply Nat.div_unique_exact; lia).
  now rewrite drop_app_length, take_app_length.
Qed.

Lemma unit_rms_palindromic (h x : list F) :
  Engine.unit_rms (h ++ rev h) = Ok x -> palindromic x.
Proof.
  intros Hx. apply unit_rms_pointwise in Hx as (f & ->).
  rewrite map_app, map_rev. apply mirrored_palindromic.
Qed.

Lemma accepted_gates (p : Engine.Params F) (lam mu : F) (sc : nat) :
  Engine.accepted p lam mu sc = true ->
  fgeb lam (Engine.lambda_threshold p) = true
  /\ fleb (fabs mu) (Engine.mean_abs_max p) = true
  /\ (Engine.sign_changes_min p <= Z.of_nat sc <= Engine.sign_changes_max p)%Z.
Proof.
  unfold Engine.accepted. rewrite !andb_true_iff, !Z.leb_le. tauto.
Qed.

End AcceptedFacts.

(** X2. Every sequence that [generate_coherent_soft] returns is the result
    of [unit_rms] on a mirrored array [h ++ rev h] and hence a palindrome,
    and it passed the three gates: its mean has an absolute value of at most
    [mean_abs_max], its low-frequency ratio is at least [lambda_threshold],
    and the number of sign changes in its first half lies between
    [sign_changes_min] and [sign_changes_max]. The record returned beside it
    holds these three measures. *)
Theorem accepted_sequence_properties {F : Type} `{Float64 F} {G : Type}
  (ext : External F G) (fuel : nat) (g g' : G) (p : Engine.Params F) (x : list F)
  (coh : Engine.Coherence F) :
  Engine.generate_coherent_soft ext fuel g p = Ok (x, coh, g') ->
  (exists h : list F, Engine.unit_rms (h ++ rev h) = Ok x)
  /\ palindromic x
  /\ fleb (fabs (np_mean x)) (Engine.mean_abs_max p) = true
  /\ (exists lam, Engine.low_freq_ratio ext x (Engine.band p) = Ok lam
                  /\ fgeb lam (Engine.lambda_threshold p) = true
                  /\ Engine.coh_lambda coh = lam)
  /\ (Engine.sign_changes_min p <= Z.of_nat (Engine.sign_changes_half x)
      <= Engine.sign_changes_max p)%Z
  /\ Engine.coh_mean coh = np_mean x
  /\ Engine.coh_sign_changes_half coh = Engine.sign_changes_half x.
Proof.
  intros Hgen.
  apply generate_ok in Hgen as (idx & g0 & lam & _ & Hattempt & Hacc & ->).
  apply attempt_ok in Hattempt as (h & Hx & Hlam).
  apply accepted_gates in Hacc as (Hgate1 & Hgate2 & Hgate3).
  split; [now exists h|].
  split; [now apply unit_rms_palindromic in Hx|].
  split; [exact Hgate2|].
  split; [now exists lam|].
  split; [exact Hgate3|].
  split; reflexivity.
Qed.

(** The sample generator on four samples: its one candidate passes the
    gates. *)
Lemma accepted_sequence_witness :
  exists (x : list float) (coh : Engine.Coherence float),
    Engine.generate_coherent_soft sample_external 1 0%nat small_Params = Ok (x, coh, 1%nat)
    /\ palindromic x
    /\ (1 <= Z.of_nat (Engine.sign_changes_half x) <= 200)%Z.
Proof.
  assert (E : exists x coh,
             Engine.generate_coherent_soft sample_external 1 0%nat small_Params
             = Ok (x, coh, 1%nat))
    by (eexists _, _; vm_compute; reflexivity).
  destruct E as (x & coh & E).
  destruct (accepted_sequence_properties _ _ _ _ E) as (_ & Hpal & _ & _ & Hsc & _).
  exists x, coh. split; [exact E|]. split; [exact Hpal|exact Hsc].
Defined.

Lemma rmap_Forall {A B : Type} (P : B -> Prop) (f : A -> result B) (l : list A)
  (out : list B) :
  (forall a b, f a = Ok b -> P b) -> rmap f l = Ok out -> Forall P out.
Proof.
  intros Hf. revert out. induction l as [|a l IH]; intros out Hout; simpl in Hout.
  - injection Hout as <-. constructor.
  - bind_inv Hout. bind_inv Hout. injection Hout as <-.
    constructor; [now apply (Hf a)|now apply IH].
Qed.

Lemma for_each_Forall {A B S : Type} (P : B -> Prop) (f : A -> S -> result (B * S))
  (l : list A) (s s' : S) (out : list B) :
  (forall a s0 b s1, f a s0 = Ok (b, s1) -> P b) ->
  for_each f l s = Ok (out, s') -> Forall P out.
Proof.
  intros Hf. revert s s' out.
  induction l as [|a l IH]; intros s s' out Hout; simpl in Hout.
  - injection Hout as <- _. constructor.
  - bind_inv Hout. destruct a0 as [b s1].
    bind_inv Hout. destruct a0 as [bs s2]. injection Hout as <- _.
    simpl in *. constructor; [now apply (Hf a s b s1)|now apply (IH s1 s2)].
Qed.

(** ** Runs that go through *)

Lemma rmap_ok {A B : Type} (f : A -> result B) (l : list A) :
  (forall a, exists b, f a = Ok b) ->
  exists out, rmap f l = Ok out /\ length out = length l.
Proof.
  intros Hf. induction l as [|a l (out & Hout & Hlen)].
  - exists []. split; reflexivity.
  - destruct (Hf a) as (b & Hb). exists (b :: out).
    simpl. rewrite Hb. simpl. rewrite Hout. simpl. split; [reflexivity|now rewrite Hlen].
Qed.

Lemma for_each_ok {A B S : Type} (f : A -> S -> result (B * S)) (l : list A) (s : S) :
  (forall a s0, exists b s1, f a s0 = Ok (b, s1)) ->
  exists out s', for_each f l s = Ok (out, s') /\ length out = length l.
Proof.
  intros Hf. revert s. induction l as [|a l IH]; intros s.
  - exists [], s. split; reflexivity.
  - destruct (Hf a s) as (b & s1 & Hb).
    destruct (IH s1) as (out & s' & Hout & Hlen).
    exists (b :: out), s'. simpl. rewrite Hb. simpl. rewrite Hout. simpl.
    split; [reflexivity|now rewrite Hlen].
Qed.

Lemma np_roll_left_length {F : Type} (x : list F) (k : nat) :
  length (np_roll_left x k) = length x.
Proof.
  unfold np_roll_left.
  rewrite length_app, Nat.add_comm, <- length_app. now rewrite take_drop.
Qed.

Section Progress.
Context {F : Type} `{Float64 F} {G : Type} (ext : External F G).
Variable p : Engine.Params F.

(** What a run asks of the generator: arrays of the size asked for. *)
Definition draws_are_sized : Prop :=
  (forall loc scale size g, length (fst (rng_normal ext loc scale size g)) = size)
  /\ (forall size g, length (fst (rng_random ext size g)) = size).

Hypothesis Hn : feqb (of_nat (Engine.n p)) (of_Z 0) = false.
Hypothesis Hsized : draws_are_sized.

Lemma theta_of_ok (k : nat) : exists t, Engine.theta_of ext p k = Ok t.
Proof. unfold Engine.theta_of, py_div. rewrite Hn. eauto. Qed.

Lemma plain_curve_ok (cname : string) (rep : nat) (x : list F) :
  exists rows, Engine.plain_curve ext p cname rep x = Ok rows
               /\ length rows = length (Engine.k_grid p).
Proof.
  unfold Engine.plain_curve. apply rmap_ok. intros k.
  destruct (theta_of_ok k) as (t & ->). simpl. eauto.
Qed.

Lemma noise_point_ok (cname : string) (rep : nat) (x : list F) (sigma : F) (k : nat) (g : G) :
  length x = Engine.n p ->
  exists row g', Engine.noise_point ext p cname rep x sigma k g = Ok (row, g').
Proof.
  intros Hlen. unfold Engine.noise_point.
  destruct (theta_of_ok k) as (t & ->). cbn [rbind].
  pose proof (proj1 Hsized (of_Z 0) sigma (Engine.n p) g) as Hnoise.
  destruct (rng_normal ext (of_Z 0) sigma (Engine.n p) g) as [noise g'].
  cbn [fst] in Hnoise.
  rewrite np_roll_left_length, Hlen, Hnoise, Nat.eqb_refl. cbn [negb].
  destruct (unit_rms_never_raises (zip_with fadd (np_roll_left x k) noise)) as (out & ->).
  simpl. eauto.
Qed.

Lemma bitflip_point_ok (cname : string) (rep : nat) (xb : list F) (prob : F) (k : nat) (g : G) :
  length xb = Engine.n p ->
  exists row g', Engine.bitflip_point ext p cname rep xb prob k g = Ok (row, g').
Proof.
  intros Hlen. unfold Engine.bitflip_point.
  destruct (theta_of_ok k) as (t & ->). cbn [rbind].
  pose proof (proj2 Hsized (Engine.n p) g) as Hu.
  destruct (rng_random ext (Engine.n p) g) as [u g'].
  cbn [fst] in Hu.
  rewrite np_roll_left_length, Hlen, Hu, Nat.eqb_refl. cbn [negb]. eauto.
Qed.

End Progress.

Lemma for_each_ok_all {A B S : Type} (P : B -> Prop) (f : A -> S -> result (B * S))
  (l : list A) (s : S) :
  (forall a s0, exists b s1, f a s0 = Ok (b, s1) /\ P b) ->
  exists out s', for_each f l s = Ok (out, s') /\ length out = length l /\ Forall P out.
Proof.
  intros Hf. revert s. induction l as [|a l IH]; intros s.
  - exists [], s. repeat split. constructor.
  - destruct (Hf a s) as (b & s1 & Hb & HP).
    destruct (IH s1) as (out & s' & Hout & Hlen & Hall).
    exists (b :: out), s'. simpl. rewrite Hb. simpl. rewrite Hout. simpl.
    repeat split; [now rewrite Hlen|now constructor].
Qed.

Lemma concat_length_uniform {A : Type} (m : nat) (ls : list (list A)) :
  Forall (fun l => length l = m) ls -> length (concat ls) = (length ls * m)%nat.
Proof.
  induction 1 as [|l ls Hl _ IH]; [reflexivity|].
  simpl. rewrite length_app, Hl, IH. reflexivity.
Qed.

Section Counting.
Context {F : Type} `{Float64 F} {G : Type} (ext : External F G).
Variables (p : Engine.Params F) (fuel : nat).

(** The generator accepts a sequence of [n] samples from every state. *)
Definition generator_accepts : Prop :=
  forall g, exists x coh g',
    Engine.generate_coherent_soft ext fuel g p = Ok (x, coh, g') /\ length x = Engine.n p.

Hypothesis Hn : feqb (of_nat (Engine.n p)) (of_Z 0) = false.
Hypothesis Hsized : draws_are_sized ext.
Hypothesis Hgen : generator_accepts.

Lemma noise_curve_ok (rep : nat) (x : list F) (c : nat) (g : G) :
  length x = Engine.n p ->
  exists rows g', Engine.noise_curve ext p rep x c g = Ok (rows, g')
                  /\ length rows = length (Engine.k_grid p).
Proof.
  intros Hlen. unfold Engine.noise_curve. apply for_each_ok.
  intros k s0. now apply noise_point_ok.
Qed.

Lemma bitflip_curve_ok (rep : nat) (xb : list F) (c : nat) (g : G) :
  length xb = Engine.n p ->
  exists rows g', Engine.bitflip_curve ext p rep xb c g = Ok (rows, g')
                  /\ length rows = length (Engine.k_grid p).
Proof.
  intros Hlen. unfold Engine.bitflip_curve. apply for_each_ok.
  intros k s0. now apply bitflip_point_ok.
Qed.

Lemma replicate_rows_ok (rep : nat) (g : G) :
  exists rows coh g',
    Engine.replicate_rows ext fuel p rep g = Ok (rows, coh, g')
    /\ length rows = (11 * length (Engine.k_grid p))%nat.
Proof.
  destruct (Hgen g) as (x & coh & g0 & Hrun & Hlen).
  unfold Engine.replicate_rows. rewrite Hrun. cbn [rbind].
  destruct (plain_curve_ok ext p Hn "coherent_soft" rep x) as (soft & -> & Hsoft).
  cbn [rbind].
  destruct (for_each_ok_all (fun rows => length rows = length (Engine.k_grid p))
              (Engine.noise_curve ext p rep x) Engine.noise_sigmas g0)
    as (noisy & g1 & -> & Hnoisy & Hnoisy_all).
  { intros c s0. now apply noise_curve_ok. }
  cbn [rbind].
  destruct (plain_curve_ok ext p Hn "coherent_bin" rep (Engine.to_bin x)) as (bin & -> & Hbin).
  cbn [rbind].
  destruct (for_each_ok_all (fun rows => length rows = length (Engine.k_grid p))
              (Engine.bitflip_curve ext p rep (Engine.to_bin x)) Engine.bitflip_ps g1)
    as (flipped & g2 & -> & Hflipped & Hflipped_all).
  { intros c s0. apply bitflip_curve_ok. unfold Engine.to_bin. now rewrite length_map. }
  cbn [rbind].
  destruct (rng_choice ext [of_Z (-1); of_Z 1] (Engine.n p) g2) as [xrand g3].
  destruct (plain_curve_ok ext p Hn "random_bin" rep xrand) as (rand & -> & Hrand).
  cbn [rbind].
  destruct (rng_choice ext [of_Z (-1); of_Z 1] (Engine.n p / 2) g3) as [half g4].
  destruct (plain_curve_ok ext p Hn "palindrome_bin_no_coherence" rep (half ++ rev half))
    as (pal & -> & Hpal).
  cbn [rbind].
  eexists _, _, _. split; [reflexivity|].
  rewrite !length_app, (concat_length_uniform Hnoisy_all),
    (concat_length_uniform Hflipped_all), Hsoft, Hnoisy, Hbin, Hflipped, Hrand, Hpal.
  cbn [length Engine.noise_sigmas Engine.bitflip_ps]. lia.
Qed.

End Counting.

Section RunCount.
Context {F : Type} `{Float64 F} {G : Type} (ext : External F G).

Lemma main_rows_ok (p : Engine.Params F) (fuel : nat) (g : G) :
  feqb (of_nat (Engine.n p)) (of_Z 0) = false ->
  draws_are_sized ext ->
  generator_accepts ext p fuel ->
  exists rows cohs g',
    Engine.main_rows ext fuel p g = Ok (rows, cohs, g')
    /\ length rows = (Engine.replicates p * (11 * length (Engine.k_grid p)))%nat
    /\ length cohs = Engine.replicates p.
Proof.
  intros Hn Hsized Hgen. unfold Engine.main_rows.
  destruct (for_each_ok_all
              (fun rc : list (@Engine.RawRow F) * (nat * Engine.Coherence F) =>
                 length (fst rc) = (11 * length (Engine.k_grid p))%nat)
              (fun rep g =>
                 rcg <- Engine.replicate_rows ext fuel p rep g ;;
                 let '(rows, coh, g') := rcg in Ok ((rows, (rep, coh)), g'))
              (seq 0 (Engine.replicates p)) g)
    as (out & g' & -> & Hlen & Hall).
  { intros rep s0.
    destruct (replicate_rows_ok Hn Hsized Hgen rep s0) as (rows & coh & s1 & -> & Hrows).
    cbn [rbind]. eexists _, _. split; [reflexivity|exact Hrows]. }
  cbn [rbind fst snd]. eexists _, _, _. split; [reflexivity|].
  rewrite length_seq in Hlen. split.
  - rewrite (concat_length_uniform (m := (11 * length (Engine.k_grid p))%nat)).
    + now rewrite length_map, Hlen.
    + now apply Forall_map.
  - now rewrite length_map.
Qed.


End RunCount.


(** ** The engine's [main] and its run log *)

Section EngineMain.
Context {F : Type} `{Float64 F} {G : Type} (ext : External F G).

Lemma runlog_meta_raises (host : Engine.Host) (p : Engine.Params F) :
  Engine.runlog_meta host p = Raise NameError.
Proof. reflexivity. Qed.

(** The tables of a run with the parameters and the seed of [main]. *)
Definition default_tables (fuel : nat) :=
  Engine.main_tables ext fuel Engine.default_Params
    (default_rng ext (Engine.seed (F := F) Engine.default_Params)).

(** The five CSV files of a run. *)
Definition with_tables (rows : list (@Engine.RawRow F))
  (cohs : list (nat * Engine.Coherence F)) (fits : list (@Engine.FitRow F))
  (files : gmap string (file F)) : gmap string (file F) :=
  <[Engine.coh_path := Csv (Engine.coh_frame cohs)]>
    (<[Engine.fit_sum_path := Csv (Engine.fit_summary fits)]>
       (<[Engine.summary_path := Csv (Engine.summary_by_condition_and_k rows)]>
          (<[Engine.fit_path := Csv (Engine.fit_frame fits)]>
             (<[Engine.raw_path := Csv (Engine.raw_frame rows)]> files)))).

(** What [main] leaves, by what the tables gave. *)
Lemma engine_main_cases (host : Engine.Host) (fuel : nat) (files : gmap string (file F)) :
  (exists rows cohs fits,
      default_tables fuel = Ok (rows, cohs, fits)
      /\ Engine.main ext host fuel files
         = (Raise NameError, [], with_tables rows cohs fits files))
  \/ (exists e, default_tables fuel = Raise e
                /\ Engine.main ext host fuel files = (Raise e, [], files))
  \/ (default_tables fuel = OutOfFuel
      /\ Engine.main ext host fuel files = (OutOfFuel, [], files)).
Proof.
  unfold Engine.main, default_tables.
  destruct (Engine.main_tables ext fuel Engine.default_Params _) as [[[rows cohs] fits]|e|].
  - left. exists rows, cohs, fits. split; [reflexivity|].
    now rewrite runlog_meta_raises.
  - right. left. now exists e.
  - right. right. split; reflexivity.
Qed.

Lemma engine_main_not_ok (host : Engine.Host) (fuel : nat) (files : gmap string (file F))
  (z : Z) : fst (fst (Engine.main ext host fuel files)) <> Ok z.
Proof.
  destruct (engine_main_cases host fuel files)
    as [(rows & cohs & fits & _ & ->)|[(e & _ & ->)|[_ ->]]]; discriminate.
Qed.

End EngineMain.


(** ** The condition names of the engine, and the row the runner asks for *)

Lemma rmap_Forall_elem {A B : Type} (P : B -> Prop) (f : A -> result B) (l : list A)
  (out : list B) :
  (forall a b, a ∈ l -> f a = Ok b -> P b) -> rmap f l = Ok out -> Forall P out.
Proof.
  revert out. induction l as [|a l IH]; intros out Hf Hout; simpl in Hout.
  - injection Hout as <-. constructor.
  - bind_inv Hout. bind_inv Hout. injection Hout as <-. constructor.
    + apply (Hf a); [left|assumption].
    + apply IH; [|assumption]. intros a' b' Hin. apply Hf. now right.
Qed.

Lemma for_each_Forall_elem {A B S : Type} (P : B -> Prop) (f : A -> S -> result (B * S))
  (l : list A) (s s' : S) (out : list B) :
  (forall a s0 b s1, a ∈ l -> f a s0 = Ok (b, s1) -> P b) ->
  for_each f l s = Ok (out, s') -> Forall P out.
Proof.
  revert s s' out.
  induction l as [|a l IH]; intros s s' out Hf Hout; simpl in Hout.
  - injection Hout as <- _. constructor.
  - bind_inv Hout. destruct a0 as [b s1].
    bind_inv Hout. destruct a0 as [bs s2]. injection Hout as <- _.
    simpl in *. constructor.
    + apply (Hf a s b s1); [left|assumption].
    + apply (IH s1 s2); [|assumption]. intros a' s0 b' s3 Hin. apply Hf. now right.
Qed.

Lemma sorted_unique_elem (l : list string) (s : string) : s ∈ sorted_unique l -> s ∈ l.
Proof.
  unfold sorted_unique. intros Hin.
  rewrite merge_sort_Permutation in Hin. exact (proj1 (elem_of_remove_dups _ _) Hin).
Qed.

(** The names under which [main] files its rows, in the order of the loop. *)
Definition engine_conditions : list string := [
  "coherent_soft";
  "coherent_soft_noise_sigma0.05"; "coherent_soft_noise_sigma0.10";
  "coherent_soft_noise_sigma0.30";
  "coherent_bin";
  "coherent_bin_bitflip_p0.01"; "coherent_bin_bitflip_p0.02";
  "coherent_bin_bitflip_p0.05"; "coherent_bin_bitflip_p0.10";
  "random_bin"; "palindrome_bin_no_coherence"
].

Section Conditions.
Context {F : Type} `{Float64 F} {G : Type} (ext : External F G).

Definition named (names : list string) (r : @Engine.RawRow F) : Prop :=
  Engine.raw_condition r ∈ names.

Lemma plain_curve_named (p : Engine.Params F) (cname : string) (rep : nat) (x : list F)
  (rows : list (@Engine.RawRow F)) :
  cname ∈ engine_conditions ->
  Engine.plain_curve ext p cname rep x = Ok rows -> Forall (named engine_conditions) rows.
Proof.
  intros Hin. unfold Engine.plain_curve. apply rmap_Forall.
  intros k row Hrow. bind_inv Hrow. injection Hrow as <-. exact Hin.
Qed.

Lemma noise_curve_named (p : Engine.Params F) (rep : nat) (x : list F) (c : nat) (g g' : G)
  (rows : list (@Engine.RawRow F)) :
  c ∈ Engine.noise_sigmas ->
  Engine.noise_curve ext p rep x c g = Ok (rows, g') -> Forall (named engine_conditions) rows.
Proof.
  intros Hc. unfold Engine.noise_curve. apply for_each_Forall.
  intros k s0 row s1 Hrow. unfold Engine.noise_point in Hrow.
  bind_inv Hrow.
  destruct (rng_normal ext (of_Z 0) (Engine.level c) (Engine.n p) s0) as [noise s2].
  destruct (negb _); [discriminate|].
  bind_inv Hrow. injection Hrow as <- _.
  unfold named. cbn [Engine.raw_condition Engine.make_row].
  unfold Engine.noise_sigmas in Hc.
  repeat (apply elem_of_cons in Hc as [->|Hc]);
    [vm_compute; set_solver ..|now apply elem_of_nil in Hc].
Qed.

Lemma bitflip_curve_named (p : Engine.Params F) (rep : nat) (xb : list F) (c : nat)
  (g g' : G) (rows : list (@Engine.RawRow F)) :
  c ∈ Engine.bitflip_ps ->
  Engine.bitflip_curve ext p rep xb c g = Ok (rows, g') ->
  Forall (named engine_conditions) rows.
Proof.
  intros Hc. unfold Engine.bitflip_curve. apply for_each_Forall.
  intros k s0 row s1 Hrow. unfold Engine.bitflip_point in Hrow.
  bind_inv Hrow.
  destruct (rng_random ext (Engine.n p) s0) as [u s2].
  destruct (negb _); [discriminate|].
  injection Hrow as <- _.
  unfold named. cbn [Engine.raw_condition Engine.make_row].
  unfold Engine.bitflip_ps in Hc.
  repeat (apply elem_of_cons in Hc as [->|Hc]);
    [vm_compute; set_solver ..|now apply elem_of_nil in Hc].
Qed.

Lemma replicate_rows_named (fuel : nat) (p : Engine.Params F) (rep : nat) (g g' : G)
  (rows : list (@Engine.RawRow F)) (coh : Engine.Coherence F) :
  Engine.replicate_rows ext fuel p rep g = Ok (rows, coh, g') ->
  Forall (named engine_conditions) rows.
Proof.
  unfold Engine.replicate_rows. intros Hrows.
  bind_inv Hrows. destruct a as [[x coh0] g0].
  bind_inv Hrows. rename a into soft, Ha0 into Hsoft.
  bind_inv Hrows. destruct a as [noisy g1]. rename Ha0 into Hnoisy.
  bind_inv Hrows. rename a into bin, Ha0 into Hbin.
  bind_inv Hrows. destruct a as [flipped g2]. rename Ha0 into Hflipped.
  destruct (rng_choice ext [of_Z (-1); of_Z 1] (Engine.n p) g2) as [xrand g3].
  bind_inv Hrows. rename a into rand, Ha0 into Hrand.
  destruct (rng_choice ext [of_Z (-1); of_Z 1] (Engine.n p / 2) g3) as [half g4].
  bind_inv Hrows. rename a into pal, Ha0 into Hpal.
  injection Hrows as <- _ _.
  repeat (apply Forall_app; split).
  - apply plain_curve_named in Hsoft; [exact Hsoft|]. unfold engine_conditions. set_solver.
  - apply Forall_concat.
    apply (for_each_Forall_elem (Forall (named engine_conditions))) in Hnoisy; [exact Hnoisy|].
    intros c s0 curve s1 Hc Hcurve. now apply noise_curve_named in Hcurve.
  - apply plain_curve_named in Hbin; [exact Hbin|]. unfold engine_conditions. set_solver.
  - apply Forall_concat.
    apply (for_each_Forall_elem (Forall (named engine_conditions))) in Hflipped;
      [exact Hflipped|].
    intros c s0 curve s1 Hc Hcurve. now apply bitflip_curve_named in Hcurve.
  - apply plain_curve_named in Hrand; [exact Hrand|]. unfold engine_conditions. set_solver.
  - apply plain_curve_named in Hpal; [exact Hpal|]. unfold engine_conditions. set_solver.
Qed.

Lemma main_rows_named (fuel : nat) (p : Engine.Params F) (g g' : G)
  (rows : list (@Engine.RawRow F)) (cohs : list (nat * Engine.Coherence F)) :
  Engine.main_rows ext fuel p g = Ok (rows, cohs, g') ->
  Forall (named engine_conditions) rows.
Proof.
  unfold Engine.main_rows. intros Hrows.
  bind_inv Hrows. destruct a as [out g1]. injection Hrows as <- _ _.
  apply Forall_concat, Forall_map. simpl.
  apply (for_each_Forall (fun rc => Forall (named engine_conditions) (fst rc))) in Ha;
    [exact Ha|].
  intros rep s0 [rws rc] s1 Hrep.
  bind_inv Hrep. destruct a as [[rws0 coh0] s2]. injection Hrep as <- _ _.
  now apply replicate_rows_named in Ha0.
Qed.

End Conditions.

Section SummaryConditions.
Context {F : Type} `{Float64 F} {G : Type} (ext : External F G).

Lemma fit_one_condition (cond : string) (rep : nat) (dcond : list (@Engine.RawRow F))
  (fit : @Engine.FitRow F) :
  Engine.fit_one ext cond rep dcond = Ok fit -> Engine.fit_condition fit = cond.
Proof.
  unfold Engine.fit_one. intros Hfit.
  bind_inv Hfit. bind_inv Hfit. bind_inv Hfit. bind_inv Hfit.
  now injection Hfit as <-.
Qed.

Lemma fit_rows_conditions (p : Engine.Params F) (rows : list (@Engine.RawRow F))
  (fits : list (@Engine.FitRow F)) :
  Engine.fit_rows ext p rows = Ok fits ->
  Forall (fun fit => Engine.fit_condition fit ∈ map Engine.raw_condition rows) fits.
Proof.
  unfold Engine.fit_rows. destruct rows as [|r rows]; [discriminate|].
  set (all := r :: rows). intros Hfits.
  bind_inv Hfits. injection Hfits as <-.
  apply Forall_concat.
  eapply rmap_Forall_elem; [|exact Ha].
  intros cond per Hcond Hper. cbv beta zeta in Hper.
  eapply rmap_Forall; [|exact Hper].
  intros rep fit Hfit. cbv beta in Hfit.
  apply fit_one_condition in Hfit. rewrite Hfit.
  now apply sorted_unique_elem.
Qed.

(** The rows of the fit summary are named after the conditions of the fits. *)
Lemma fit_summary_rows_named (fits : list (@Engine.FitRow F)) (cond : string) :
  cond ∉ map Engine.fit_condition fits ->
  rows_named (Engine.fit_summary fits) cond = [].
Proof.
  intros Hcond. unfold rows_named, Engine.fit_summary. cbn [records].
  assert (Hnames : Forall (fun c => c <> cond)
                          (sorted_unique (map Engine.fit_condition fits))).
  { apply Forall_forall. intros c Hc ->. now apply Hcond, sorted_unique_elem. }
  induction Hnames as [|c names Hc _ IH]; [reflexivity|].
  cbn [map]. rewrite filter_cons_False; [exact IH|].
  rewrite lookup_insert. cbn [Runner.cell_is].
  now apply not_true_iff_false, String.eqb_neq.
Qed.

Lemma fit_summary_has_condition_column (fits : list (@Engine.FitRow F)) :
  "condition" ∈ columns (Engine.fit_summary fits).
Proof. unfold Engine.fit_summary. cbn [columns]. left. Qed.

Lemma main_tables_conditions (fuel : nat) (p : Engine.Params F) (g : G)
  (rows : list (@Engine.RawRow F)) (cohs : list (nat * Engine.Coherence F))
  (fits : list (@Engine.FitRow F)) :
  Engine.main_tables ext fuel p g = Ok (rows, cohs, fits) ->
  Forall (fun fit => Engine.fit_condition fit ∈ engine_conditions) fits.
Proof.
  unfold Engine.main_tables. intros Htab.
  bind_inv Htab. destruct a as [[rows0 cohs0] g'].
  bind_inv Htab. injection Htab as <- <- <-.
  apply main_rows_named in Ha. apply fit_rows_conditions in Ha0.
  eapply Forall_impl; [exact Ha0|].
  intros fit Hin. cbv beta in Hin.
  apply list_elem_of_fmap_1 in Hin as (r & -> & Hr).
  rewrite Forall_forall in Ha. now apply Ha.
Qed.

End SummaryConditions.

(** X6. The fit summary that the engine computes files the binary sequences
    under "coherent_bin" and holds no row "coherent_bin_clean". Given that
    table and any reference, [compute_verdict] therefore ends in
    [ValueError] at its first row lookup and writes neither verdict.txt nor
    verdict_details.json. *)
Theorem engine_summary_has_no_clean_row {F : Type} `{Float64 F} {G : Type}
  (float_of_str : string -> option F) (ext : External F G) (fuel : nat) (p : Engine.Params F) (g : G)
  (rows : list (@Engine.RawRow F)) (cohs : list (nat * Engine.Coherence F))
  (fits : list (@Engine.FitRow F)) (ref : json F) (files : gmap string (file F)) :
  Engine.main_tables ext fuel p g = Ok (rows, cohs, fits) ->
  files !! Runner.fit_summary_csv = Some (Csv (Engine.fit_summary fits)) ->
  files !! Runner.reference_json = Some (Json ref) ->
  rows_named (Engine.fit_summary fits) "coherent_bin_clean" = []
  /\ Runner.compute_verdict float_of_str files = (Raise ValueError, files).
Proof.
  intros Htab Hfit Href.
  assert (Hnone : rows_named (Engine.fit_summary fits) "coherent_bin_clean" = []).
  { apply fit_summary_rows_named. intros Hin.
    apply list_elem_of_fmap_1 in Hin as (fit & Hname & Hfits).
    apply main_tables_conditions in Htab. rewrite Forall_forall in Htab.
    specialize (Htab fit Hfits). rewrite <- Hname in Htab.
    unfold engine_conditions in Htab.
    repeat (apply elem_of_cons in Htab as [Htab|Htab]; [discriminate|]).
    now apply elem_of_nil in Htab. }
  split; [exact Hnone|].
  apply compute_verdict_raise.
  unfold Runner.verdict_details, Runner.load_fit_summary, Runner.load_reference.
  rewrite Hfit, Href. cbn [rbind].
  unfold Runner.row. rewrite decide_True by apply fit_summary_has_condition_column.
  fold (rows_named (Engine.fit_summary fits) "coherent_bin_clean"). now rewrite Hnone.
Qed.

(** ** Paths, and what the runner leaves alone *)

Lemma strip_prefix_app (dir rel : string) : Runner.strip_prefix dir (dir ++ rel) = Some rel.
Proof.
  induction dir as [|a dir IH]; [reflexivity|].
  simpl. now rewrite Ascii.eqb_refl.
Qed.

Lemma strip_prefix_Some (dir k rel : string) :
  Runner.strip_prefix dir k = Some rel -> k = dir ++ rel.
Proof.
  revert k. induction dir as [|a dir IH]; intros k Hk; simpl in Hk.
  - now injection Hk as ->.
  - destruct k as [|b k]; [discriminate|].
    destruct (Ascii.eqb a b) eqn:Eab; [|discriminate].
    apply Ascii.eqb_eq in Eab as ->.
    change (String b k = String b (dir ++ rel)). f_equal. now apply IH.
Qed.

Lemma strip_prefix_longer (dir more k : string) :
  Runner.strip_prefix dir k = None -> Runner.strip_prefix (dir ++ more) k = None.
Proof.
  revert k. induction dir as [|a dir IH]; intros k Hk; simpl in Hk; [discriminate|].
  simpl. destruct k as [|b k]; [reflexivity|].
  destruct (Ascii.eqb a b); [now apply IH|reflexivity].
Qed.

Section Files.
Context {F : Type}.
Implicit Types files tree : gmap string (file F).

Lemma outside_lookup (dir k : string) files :
  Runner.strip_prefix dir k = None -> Runner.outside dir files !! k = files !! k.
Proof.
  intros Hk. unfold Runner.outside.
  destruct (files !! k) as [f|] eqn:Ef.
  - apply map_lookup_filter_Some. split; [exact Ef|exact Hk].
  - apply map_lookup_filter_None. left. exact Ef.
Qed.

(** Putting a tree at [dir] changes no path outside [dir]. *)
Lemma mount_lookup_outside (dir k : string) tree files :
  Runner.strip_prefix dir k = None -> Runner.mount dir tree files !! k = files !! k.
Proof.
  intros Hk. unfold Runner.mount.
  rewrite lookup_union_r; [now apply outside_lookup|].
  apply not_elem_of_list_to_map_1. intros Hin.
  apply list_elem_of_fmap_1 in Hin as ([k' f] & Hkey & Hin).
  apply list_elem_of_fmap_1 in Hin as ([rel f'] & Hpair & _).
  injection Hpair as -> _. cbn [fst] in Hkey. subst k.
  now rewrite strip_prefix_app in Hk.
Qed.

Lemma copy_glob_lookup_outside (src suffix dst k : string) files :
  Runner.strip_prefix dst k = None ->
  Runner.copy_glob src suffix dst files !! k = files !! k.
Proof.
  intros Hk. unfold Runner.copy_glob.
  induction (filter _ (map_to_list (Runner.under src files))) as [|[name f] l IH];
    [reflexivity|].
  cbn [foldr fst snd]. rewrite lookup_insert_ne; [exact IH|].
  intros <-. now rewrite strip_prefix_app in Hk.
Qed.

Lemma copy_tree_lookup_outside (src dst k : string) files :
  Runner.strip_prefix dst k = None ->
  Runner.copy_tree src dst files !! k = files !! k.
Proof.
  intros Hk. unfold Runner.copy_tree.
  destruct (decide (Runner.under src files = ∅)); [reflexivity|].
  now apply mount_lookup_outside.
Qed.

End Files.

(** X8. [copy_outputs] writes below paper_ready only: every other path holds
    afterwards what it held before, the vendored pack included. *)
Theorem copy_outputs_stays_in_paper_ready {F : Type} (files : gmap string (file F))
  (k : string) :
  Runner.strip_prefix "paper_ready/" k = None ->
  Runner.copy_outputs files !! k = files !! k.
Proof.
  intros Hk. unfold Runner.copy_outputs.
  rewrite copy_tree_lookup_outside
    by apply (strip_prefix_longer "paper_ready/" "support/logs/" k Hk).
  rewrite copy_tree_lookup_outside
    by apply (strip_prefix_longer "paper_ready/" "support/manifests/" k Hk).
  rewrite copy_glob_lookup_outside
    by apply (strip_prefix_longer "paper_ready/" "tables/" k Hk).
  now rewrite copy_glob_lookup_outside
    by apply (strip_prefix_longer "paper_ready/" "figures/" k Hk).
Qed.

(** ** The runner's [main] on the vendored engine *)

Section RunnerMain.
Context {F : Type} `{Float64 F} {G : Type} (ext : External F G) (host : Engine.Host).
Variable sha256_file : file F -> string.

Definition engine_script : string := Runner.vendor_dir ++ "code/run_v6_2_experiment.py".

(** The paths [run_v6_2_engine] may write: the vendored pack and the two
    files that keep what the engine printed. *)
Definition engine_may_write (k : string) : Prop :=
  Runner.strip_prefix Runner.vendor_dir k <> None
  \/ k = "paper_ready/engine_stdout.txt" \/ k = "paper_ready/engine_stderr.txt".

Lemma run_v6_2_engine_cases (fuel : nat) (files : gmap string (file F)) :
  (files !! engine_script = None
   /\ Runner.run_v6_2_engine ext host fuel files = (Raise FileNotFoundError, files))
  \/ (files !! engine_script <> None
      /\ exists files',
           Runner.run_v6_2_engine ext host fuel files = (Raise RuntimeError, files')
           /\ files' !! "paper_ready/engine_stdout.txt" = Some (Text "")
           /\ forall k, ~ engine_may_write k -> files' !! k = files !! k)
  \/ (files !! engine_script <> None
      /\ Runner.run_v6_2_engine ext host fuel files = (OutOfFuel, files)).
Proof.
  unfold Runner.run_v6_2_engine. fold engine_script.
  destruct (files !! engine_script) as [script|]; [|left; split; reflexivity].
  right.
  destruct (engine_main_cases ext host fuel (Runner.under Runner.vendor_dir files))
    as [(rows & cohs & fits & _ & ->)|[(e & _ & ->)|[_ ->]]].
  - left. split; [discriminate|]. eexists. split; [reflexivity|]. split.
    + rewrite lookup_insert_ne by discriminate. now rewrite lookup_insert.
    + intros k Hk. unfold engine_may_write in Hk.
      rewrite !lookup_insert_ne by (intros <-; apply Hk; auto).
      apply mount_lookup_outside.
      destruct (Runner.strip_prefix Runner.vendor_dir k) eqn:E; [|reflexivity].
      exfalso. apply Hk. left. discriminate.
  - left. split; [discriminate|]. eexists. split; [reflexivity|]. split.
    + rewrite lookup_insert_ne by discriminate. now rewrite lookup_insert.
    + intros k Hk. unfold engine_may_write in Hk.
      rewrite !lookup_insert_ne by (intros <-; apply Hk; auto).
      apply mount_lookup_outside.
      destruct (Runner.strip_prefix Runner.vendor_dir k) eqn:E; [|reflexivity].
      exfalso. apply Hk. left. discriminate.
  - right. split; [discriminate|reflexivity].
Qed.

End RunnerMain.

(** X7. [main] of the runner never reaches its verdict. If the engine
    script is missing it ends in [FileNotFoundError] with every file as it
    was; otherwise the engine it starts ends with a nonzero status, so that
    [run_v6_2_engine] raises [RuntimeError] (or the engine never stops).
    In every case nothing is printed and no file other than the vendored
    pack, engine_stdout.txt and engine_stderr.txt is changed: verdict.txt,
    verdict_details.json and hashes.txt are never written. *)
Theorem runner_main_never_reaches_verdict {F : Type} `{Float64 F} {G : Type}
  (float_of_str : string -> option F) (ext : External F G) (host : Engine.Host) (sha256_file : file F -> string)
  (fuel : nat) (files : gmap string (file F)) :
  (fst (fst (Runner.main float_of_str ext host sha256_file fuel files)) = Raise FileNotFoundError
   \/ fst (fst (Runner.main float_of_str ext host sha256_file fuel files)) = Raise RuntimeError
   \/ fst (fst (Runner.main float_of_str ext host sha256_file fuel files)) = OutOfFuel)
  /\ (files !! engine_script = None ->
      Runner.main float_of_str ext host sha256_file fuel files = (Raise FileNotFoundError, [], files))
  /\ snd (fst (Runner.main float_of_str ext host sha256_file fuel files)) = []
  /\ (forall k, ~ engine_may_write k ->
        snd (Runner.main float_of_str ext host sha256_file fuel files) !! k = files !! k)
  /\ snd (Runner.main float_of_str ext host sha256_file fuel files) !! Runner.verdict_txt
     = files !! Runner.verdict_txt.
Proof.
  assert (Hverdict : ~ engine_may_write Runner.verdict_txt).
  { intros [Hv|[Hv|Hv]]; [now apply Hv|discriminate..]. }
  unfold Runner.main.
  destruct (run_v6_2_engine_cases ext host fuel files)
    as [[Hnone ->]|[(Hsome & files' & -> & _ & Hframe)|[Hsome ->]]]; cbn [fst snd].
  - repeat split; auto.
  - repeat split; auto. intros Hnone. now apply Hsome in Hnone.
  - repeat split; auto. intros Hnone. now apply Hsome in Hnone.
Qed.

(** ** What [copy_outputs] copies *)

Lemma string_app_inj (a b c : string) : a ++ b = a ++ c -> b = c.
Proof.
  induction a as [|x a IH]; [exact (fun E => E)|].
  intros E. apply IH.
  change (String x (a ++ b) = String x (a ++ c)) in E. now injection E.
Qed.

Section CopyTables.
Context {F : Type}.
Implicit Types files : gmap string (file F).

(** The files below [dir], looked up by the rest of their path. *)
Lemma under_lookup (dir rel : string) files :
  Runner.under dir files !! rel = files !! (dir ++ rel).
Proof.
  unfold Runner.under.
  assert (Hin : forall y,
            (rel, y) ∈ omap (M := list)
                         (fun kv : string * file F =>
                            match Runner.strip_prefix dir (fst kv) with
                            | Some r => Some (r, snd kv)
                            | None => None
                            end) (map_to_list files)
            <-> files !! (dir ++ rel) = Some y).
  { intros y. rewrite list_elem_of_omap. split.
    - intros ([k f] & Hkf & Hstrip). cbn [fst snd] in Hstrip.
      destruct (Runner.strip_prefix dir k) as [r|] eqn:Ek; [|discriminate].
      injection Hstrip as -> ->. apply strip_prefix_Some in Ek as ->.
      now apply elem_of_map_to_list.
    - intros Hy. exists (dir ++ rel, y). split; [now apply elem_of_map_to_list|].
      cbn [fst snd]. now rewrite strip_prefix_app. }
  destruct (files !! (dir ++ rel)) as [f|] eqn:Ef.
  - apply elem_of_list_to_map_1'.
    + intros y Hy. apply Hin in Hy. congruence.
    + now apply Hin.
  - apply not_elem_of_list_to_map_1. intros Hrel.
    apply list_elem_of_fmap_1 in Hrel as ([r y] & -> & Hy).
    cbn [fst] in Hy. apply Hin in Hy. discriminate.
Qed.

Lemma foldr_insert_lookup (dst name : string) (f : file F) (l : list (string * file F))
  files :
  (name, f) ∈ l -> (forall y, (name, y) ∈ l -> y = f) ->
  foldr (fun kv acc => <[dst ++ fst kv := snd kv]> acc) files l !! (dst ++ name) = Some f.
Proof.
  induction l as [|[n' f'] l IH]; intros Hin Huniq.
  - now apply elem_of_nil in Hin.
  - cbn [foldr fst snd]. destruct (decide (n' = name)) as [->|Hne].
    + rewrite lookup_insert_eq. f_equal. apply Huniq. left.
    + rewrite lookup_insert_ne by (intros E; apply string_app_inj in E; congruence).
      apply IH.
      * apply elem_of_cons in Hin as [E|Hin]; [congruence|exact Hin].
      * intros y Hy. apply Huniq. now right.
Qed.

(** [copy_glob] puts at [dst] every file of [src] whose name ends as asked. *)
Lemma copy_glob_copies (src suffix dst name : string) (f : file F) files :
  files !! (src ++ name) = Some f ->
  Runner.is_name name = true -> Runner.ends_with suffix name = true ->
  Runner.copy_glob src suffix dst files !! (dst ++ name) = Some f.
Proof.
  intros Hf Hname Hends. unfold Runner.copy_glob.
  apply foldr_insert_lookup.
  - apply list_elem_of_filter. split.
    + cbn [fst]. now rewrite Hname, Hends.
    + apply elem_of_map_to_list. now rewrite under_lookup.
  - intros y Hy. apply list_elem_of_filter in Hy as [_ Hy].
    apply elem_of_map_to_list in Hy. rewrite under_lookup in Hy. congruence.
Qed.

End CopyTables.

(** X9. [copy_outputs] copies every CSV file that stands directly in the
    pack's results directory to paper_ready/tables under the same name,
    whatever paper_ready held there before. (The entries matched are files:
    a subdirectory whose own name ends in .csv is not part of the model.) *)
Theorem copy_outputs_copies_tables {F : Type} (files : gmap string (file F))
  (name : string) (f : file F) :
  files !! (Runner.vendor_dir ++ "results/" ++ name) = Some f ->
  Runner.is_name name = true -> Runner.ends_with ".csv" name = true ->
  Runner.copy_outputs files !! ("paper_ready/tables/" ++ name) = Some f.
Proof.
  intros Hf Hname Hends. unfold Runner.copy_outputs.
  rewrite !copy_tree_lookup_outside by reflexivity.
  apply copy_glob_copies; [|exact Hname|exact Hends].
  rewrite copy_glob_lookup_outside by reflexivity. exact Hf.
Qed.

(** *** Sample file systems *)

(** A directory that holds the fit summary of a run and a reference. *)
Definition engine_sample_files (fits : list (@Engine.FitRow float))
  : gmap string (file float) :=
  list_to_map [
    (Runner.fit_summary_csv, Csv (Engine.fit_summary fits));
    (Runner.reference_json, Json sample_reference)
  ].

(** A kit whose pack holds a results table, beside a stale copy of it. *)
Definition pack_files : gmap string (file float) :=
  list_to_map [
    ("vendor/v6_2_artifact_pack/results/fit_summary_by_condition.csv", Csv sample_summary);
    ("paper_ready/tables/fit_summary_by_condition.csv", Text "stale");
    (Runner.reference_json, Json sample_reference)
  ].

(** The sample engine run on four samples gives its tables. *)
Lemma sample_tables_ok :
  exists rows cohs fits,
    Engine.main_tables sample_external 1 small_Params 0%nat = Ok (rows, cohs, fits).
Proof.
  destruct (Engine.main_tables sample_external 1 small_Params 0%nat)
    as [[[rows cohs] fits]|e|] eqn:Htab.
  - now exists rows, cohs, fits.
  - vm_compute in Htab. discriminate.
  - vm_compute in Htab. discriminate.
Qed.

(** The summary of the sample engine run has no row for the runner. *)
Lemma engine_summary_witness :
  exists rows cohs fits,
    Engine.main_tables sample_external 1 small_Params 0%nat = Ok (rows, cohs, fits)
    /\ Runner.compute_verdict sample_float_of_str (engine_sample_files fits)
       = (Raise ValueError, engine_sample_files fits).
Proof.
  destruct sample_tables_ok as (rows & cohs & fits & Htab).
  exists rows, cohs, fits. split; [exact Htab|].
  assert (Hfit : engine_sample_files fits !! Runner.fit_summary_csv
                 = Some (Csv (Engine.fit_summary fits))).
  { unfold engine_sample_files. cbn [list_to_map foldr fst snd]. apply lookup_insert_eq. }
  assert (Href : engine_sample_files fits !! Runner.reference_json
                 = Some (Json sample_reference)).
  { unfold engine_sample_files. cbn [list_to_map foldr fst snd].
    rewrite lookup_insert_ne by discriminate. apply lookup_insert_eq. }
  exact (proj2 (@engine_summary_has_no_clean_row float binary64 nat sample_float_of_str
                  sample_external
                  1%nat small_Params 0%nat rows cohs fits sample_reference
                  (engine_sample_files fits) Htab Hfit Href)).
Defined.

(** The reference file of the kit is left alone. *)
Lemma copy_outputs_frame_witness :
  Runner.copy_outputs pack_files !! Runner.reference_json = Some (Json sample_reference).
Proof.
  rewrite (copy_outputs_stays_in_paper_ready pack_files Runner.reference_json eq_refl).
  reflexivity.
Defined.

(** The table of the pack replaces the stale copy. *)
Lemma copy_outputs_tables_witness :
  Runner.copy_outputs pack_files !! Runner.fit_summary_csv = Some (Csv sample_summary).
Proof.
  exact (copy_outputs_copies_tables pack_files "fit_summary_by_condition.csv"
           (f := Csv sample_summary) eq_refl eq_refl eq_refl).
Defined.

(** ** The checker on what the runner writes *)

Lemma filter_none {A : Type} (P : A -> Prop) `{forall x, Decision (P x)} (l : list A) :
  Forall (fun x => ~ P x) l -> filter P l = [].
Proof.
  induction 1 as [|x l Hx _ IH]; [reflexivity|].
  now rewrite filter_cons_False.
Qed.

Section CheckerOnRunner.
Context {F : Type} `{Float64 F} (str_of_value : json F -> string).

Lemma verdict_token_truthy (checks : list (string * bool)) :
  Checker.truthy (JStr (Runner.verdict_token checks) : json F) = true.
Proof.
  unfold Runner.verdict_token. now destruct (Runner.passed checks).
Qed.

End CheckerOnRunner.

(** X10. On a directory that holds the four required files, whose
    verdict_details.json holds the details [compute_verdict] builds and
    whose fit summary names the three required conditions, the checker
    prints OFFICIAL_REPLICATION_PASS when every check of the runner held and
    OFFICIAL_REPLICATION_FAIL otherwise, with exit status 0. *)
Theorem checker_reports_runner_verdict {F : Type} `{Float64 F}
  (str_of_value : json F -> string) (upper_unicode : string -> string) (arg : string)
  (dir : gmap string (Checker.entry F)) (text csv_text : string)
  (loads : json F + string)
  (checks : list (string * bool)) (clean rand pal : gmap string (json F))
  (ref_clean : json F) :
  (forall rel, rel ∈ Checker.REQUIRED -> dir !! rel <> None) ->
  dir !! "verdict_details.json"
  = Some (Checker.EFile text (inl (Runner.details_of checks clean rand pal ref_clean))) ->
  dir !! "tables/fit_summary_by_condition.csv" = Some (Checker.EFile csv_text loads) ->
  (forall cond, cond ∈ Checker.EXPECTED_CONDITIONS ->
                Checker.contains cond csv_text = true) ->
  Checker.main str_of_value upper_unicode [arg] (Some dir)
  = Ok ([if Runner.passed checks then "OFFICIAL_REPLICATION_PASS"
         else "OFFICIAL_REPLICATION_FAIL"], 0%Z).
Proof.
  intros Hrequired Hdetails Hcsv Hconds. unfold Checker.main.
  assert (Hmissing : filter (fun rel => dir !! rel = None) Checker.REQUIRED = []).
  { apply filter_none, Forall_forall. intros rel Hrel. now apply Hrequired. }
  rewrite Hmissing, Hdetails.
  rewrite extract_status_of_details. cbn [rbind].
  rewrite verdict_token_truthy. cbn [negb].
  rewrite Hcsv. cbn [Checker.read_text rbind].
  assert (Hnone : filter (fun cond => Checker.contains cond csv_text = false)
                         Checker.EXPECTED_CONDITIONS = []).
  { apply filter_none, Forall_forall. intros cond Hcond.
    rewrite (Hconds cond Hcond). discriminate. }
  rewrite Hnone. now rewrite decide_status_of_token.
Qed.

(** A directory whose details record one failed check. *)
Definition failed_checks : list (string * bool) :=
  [("clean.R2_mean", true); ("random.R2_mean_fail", false)].

Definition failed_directory : gmap string (Checker.entry float) :=
  list_to_map [
    ("verdict_details.json",
     Checker.EFile "{...}" (inl (Runner.details_of failed_checks ∅ ∅ ∅ JNull)));
    ("run_manifest.json", Checker.EFile "{}" (inl (JDict [])));
    ("hashes.txt", Checker.EFile "" (inr "Expecting value"));
    ("tables/fit_summary_by_condition.csv",
     Checker.EFile
       ("condition,R2_mean" ++ Runner.nl ++ "coherent_bin_clean,0.875" ++ Runner.nl
        ++ "random_bin,0.875" ++ Runner.nl ++ "palindrome_bin_no_coherence,0.125" ++ Runner.nl)
       (inr "Expecting value"))
  ].

Lemma checker_reports_runner_witness :
  Checker.main sample_str_of_value sample_upper_unicode ["paper_ready"]
    (Some failed_directory)
  = Ok (["OFFICIAL_REPLICATION_FAIL"], 0%Z).
Proof.
  refine (@checker_reports_runner_verdict float binary64 sample_str_of_value
            sample_upper_unicode "paper_ready" failed_directory "{...}" _ (inr "Expecting value") failed_checks ∅ ∅ ∅ JNull
            _ eq_refl eq_refl _).
  - intros rel Hrel. unfold Checker.REQUIRED in Hrel.
    repeat (apply elem_of_cons in Hrel as [->|Hrel]); [discriminate..|].
    now apply elem_of_nil in Hrel.
  - intros cond Hcond. unfold Checker.EXPECTED_CONDITIONS in Hcond.
    repeat (apply elem_of_cons in Hcond as [->|Hcond]); [reflexivity..|].
    now apply elem_of_nil in Hcond.
Defined.
